(** * cursor-stats: usage aggregation and invoice parsing

    A shallow embedding of the usage engine of the extension
    (src/services/api.ts, src/services/team.ts, src/utils/currency.ts and
    the aggregation part of src/utils/updateStats.ts), of the session token
    of src/services/database.ts and of the log of src/utils/logger.ts, with
    the properties of its specification stated over the embedding, and
    further properties of the code after them.

    Conventions.
    - A JavaScript number is an IEEE binary64 value: Rocq's primitive
      [float], whose operations the kernel computes.
    - A JavaScript string is a [string] of bytes; the case mapping and the
      character classes are the ASCII ones.
    - An [async] function that may throw is a computation in the monad
      [Eff.M]: it threads the [World] (files, clock, remote endpoints, the
      trace of I/O events) and returns a value or the thrown error.
    - The extension is activated, and the answers of the remote service
      have the types the code declares for them. *)

From Stdlib Require Import ZArith NArith String Ascii List Bool Lia.
From Stdlib Require Import Floats Uint63 DecimalString.
From stdpp Require Import base option list gmap strings.

Set Default Proof Using "Type".
Local Open Scope string_scope.
Local Open Scope list_scope.

(** ** Strings, as the JavaScript runtime treats them *)

Module Js.

Definition chars (s : string) : list ascii := list_ascii_of_string s.
Definition str (l : list ascii) : string := string_of_list_ascii l.

Definition code (c : ascii) : N := N_of_ascii c.

Definition isDigit (c : ascii) : bool := (48 <=? code c)%N && (code c <=? 57)%N.
Definition isUpper (c : ascii) : bool := (65 <=? code c)%N && (code c <=? 90)%N.
Definition isLower (c : ascii) : bool := (97 <=? code c)%N && (code c <=? 122)%N.

(** [\w] *)
Definition isWordChar (c : ascii) : bool :=
  isDigit c || isUpper c || isLower c || (code c =? 95)%N.

(** [\s]: tab, line feed, vertical tab, form feed, carriage return, space. *)
Definition isSpace (c : ascii) : bool :=
  ((9 <=? code c)%N && (code c <=? 13)%N) || (code c =? 32)%N.

(** The characters [.] does not match. *)
Definition isLineTerminator (c : ascii) : bool :=
  (code c =? 10)%N || (code c =? 13)%N.

Definition lowerChar (c : ascii) : ascii :=
  if isUpper c then ascii_of_N (code c + 32) else c.

(** [s.toLowerCase()] *)
Definition toLowerCase (s : string) : string := str (map lowerChar (chars s)).

Fixpoint prefixb (p l : list ascii) : bool :=
  match p, l with
  | [], _ => true
  | a :: p', b :: l' => if Ascii.eqb a b then prefixb p' l' else false
  | _ :: _, [] => false
  end.

Fixpoint infixb (p l : list ascii) : bool :=
  prefixb p l || match l with [] => false | _ :: l' => infixb p l' end.

(** [s.includes(sub)] *)
Definition includes (s sub : string) : bool := infixb (chars sub) (chars s).

(** [s.startsWith(p)] *)
Definition startsWith (s p : string) : bool := prefixb (chars p) (chars s).

(** [s.endsWith(p)] *)
Definition endsWith (s p : string) : bool :=
  prefixb (rev (chars p)) (rev (chars s)).

Fixpoint dropWhile (p : ascii -> bool) (l : list ascii) : list ascii :=
  match l with
  | [] => []
  | c :: l' => if p c then dropWhile p l' else l
  end.

(** [s.trim()] *)
Definition trim (s : string) : string :=
  str (rev (dropWhile isSpace (rev (dropWhile isSpace (chars s))))).

(** [s.substring(from)] and [s.substring(from, to)] for [from <= to]. *)
Definition substringFrom (s : string) (from : nat) : string :=
  str (drop from (chars s)).
Definition substring (s : string) (from to : nat) : string :=
  str (take (to - from) (drop from (chars s))).

(** [s.padStart(width, "0")] *)
Definition padStart0 (s : string) (width : nat) : string :=
  str (replicate (width - String.length s) "0"%char) +:+ s.

(** [s.split(sep)], for a non-empty separator. *)
Fixpoint splitAux (sep : list ascii) (n : nat) (cur l : list ascii) : list string :=
  match l with
  | [] => [str (rev cur)]
  | c :: l' =>
      match n with
      | S n' => splitAux sep n' cur l'
      | O =>
          if prefixb sep l
          then str (rev cur) :: splitAux sep (length sep - 1) [] l'
          else splitAux sep 0 (c :: cur) l'
      end
  end.
Definition split (s sep : string) : list string := splitAux (chars sep) 0 [] (chars s).

(** Truthiness of a string: the empty string is falsy. *)
Definition truthy (s : string) : bool := negb (String.eqb s "").

End Js.

(** ** Regular expressions

    The patterns of the source are written as terms of [regex] and run by a
    backtracking matcher with the priorities of ECMAScript: alternatives
    left to right, greedy quantifiers longest first, lazy ones shortest
    first, the leftmost start position first. No pattern of the source has
    a group inside a quantifier or a back reference. *)

Module Regex.
Import Js.

Inductive regex : Type :=
| Empty
| Char (p : ascii -> bool)
| Seq (r1 r2 : regex)
| Alt (r1 r2 : regex)
| Star (greedy : bool) (r : regex)
| Group (i : nat) (r : regex)
| Bol
| Eol
| WordBoundary.

Record mstate : Type := MState {
  prev : option ascii;             (* the character before the position *)
  rest : list ascii;               (* the input from the position on *)
  caps : list (nat * list ascii);  (* the groups captured so far *)
}.

Definition isWordOpt (o : option ascii) : bool :=
  match o with Some c => isWordChar c | None => false end.

(** The iterations of a quantified pattern whose one iteration is
    matched by [once]: at most [fuel] of them, each consuming some input
    (an iteration that consumes nothing is rejected). *)
Fixpoint starLoop (greedy : bool)
    (once : mstate -> (mstate -> option mstate) -> option mstate)
    (k : mstate -> option mstate) (fuel : nat) (st : mstate) : option mstate :=
  match fuel with
  | O => k st
  | S fuel' =>
      let again (_ : unit) :=
        once st (fun st' =>
          if (length (rest st') <? length (rest st))%nat
          then starLoop greedy once k fuel' st' else None) in
      if greedy
      then match again tt with Some res => Some res | None => k st end
      else match k st with Some res => Some res | None => again tt end
  end.

(** [rmatch r st k]: match [r] at [st], then go on with [k]; the first
    success in the order of the priorities is the result. *)
Fixpoint rmatch (r : regex) (st : mstate) (k : mstate -> option mstate)
  : option mstate :=
  match r with
  | Empty => k st
  | Char p =>
      match rest st with
      | c :: tl => if p c then k (MState (Some c) tl (caps st)) else None
      | [] => None
      end
  | Seq r1 r2 => rmatch r1 st (fun st' => rmatch r2 st' k)
  | Alt r1 r2 =>
      match rmatch r1 st k with
      | Some res => Some res
      | None => rmatch r2 st k
      end
  | Star greedy r1 => starLoop greedy (rmatch r1) k (S (length (rest st))) st
  | Group i r1 =>
      rmatch r1 st (fun st' =>
        let n := (length (rest st) - length (rest st'))%nat in
        k (MState (prev st') (rest st') ((i, take n (rest st)) :: caps st')))
  | Bol => match prev st with None => k st | Some _ => None end
  | Eol => match rest st with [] => k st | _ :: _ => None end
  | WordBoundary =>
      if xorb (isWordOpt (prev st)) (isWordOpt (head (rest st)))
      then k st else None
  end.

(** The result of [RegExp.prototype.exec]: what precedes the match, the
    match, what follows it, and the captures. *)
Record rmatched : Type := Matched {
  before : list ascii;
  whole : list ascii;
  after : list ascii;
  groups : list (nat * list ascii);
}.

Fixpoint searchFrom (r : regex) (pre : list ascii) (p : option ascii)
    (s : list ascii) : option rmatched :=
  match rmatch r (MState p s []) Some with
  | Some st =>
      Some (Matched (rev pre) (take (length s - length (rest st)) s)
                    (rest st) (caps st))
  | None =>
      match s with
      | [] => None
      | c :: tl => searchFrom r (c :: pre) (Some c) tl
      end
  end.

(** [s.match(r)] for a pattern without the [g] flag. *)
Definition exec (r : regex) (s : string) : option rmatched :=
  searchFrom r [] None (chars s).

(** [!!m] *)
Definition matched (m : option rmatched) : bool :=
  match m with Some _ => true | None => false end.

(** [m[i]] for [i >= 1]: [None] is [undefined]. *)
Definition group (i : nat) (m : rmatched) : option string :=
  match find (fun c => Nat.eqb (fst c) i) (groups m) with
  | Some c => Some (str (snd c))
  | None => None
  end.

(** [m?.[i]] where it is tested for truthiness: the group, unless the
    match failed, the group took no part, or it is the empty string. *)
Definition capture (i : nat) (m : option rmatched) : option string :=
  match mbind (group i) m with
  | Some s => if truthy s then Some s else None
  | None => None
  end.

(** [s.replace(r, "")] for a pattern with the [g] flag. *)
Fixpoint removeAllAux (r : regex) (fuel : nat) (p : option ascii)
    (s : list ascii) : list ascii :=
  match fuel with
  | O => s
  | S fuel' =>
      match rmatch r (MState p s []) Some with
      | Some st =>
          if (length (rest st) <? length s)%nat
          then removeAllAux r fuel' (prev st) (rest st)
          else match s with
               | [] => []
               | c :: tl => c :: removeAllAux r fuel' (Some c) tl
               end
      | None =>
          match s with
          | [] => []
          | c :: tl => c :: removeAllAux r fuel' (Some c) tl
          end
      end
  end.
Definition removeAll (r : regex) (s : string) : string :=
  str (removeAllAux r (S (String.length s)) None (chars s)).

(** *** Pattern syntax *)

Definition chr (c : ascii) : regex := Char (Ascii.eqb c).
Definition chrCI (c : ascii) : regex :=
  Char (fun x => Ascii.eqb (lowerChar x) (lowerChar c)).
Definition oneOf (s : string) : regex :=
  Char (fun x => existsb (Ascii.eqb x) (chars s)).
Definition digit : regex := Char isDigit.
Definition word : regex := Char isWordChar.
Definition space : regex := Char isSpace.
Definition dot : regex := Char (fun x => negb (isLineTerminator x)).

Fixpoint seqs (l : list regex) : regex :=
  match l with
  | [] => Empty
  | [r] => r
  | r :: l' => Seq r (seqs l')
  end.
Fixpoint alts (l : list regex) : regex :=
  match l with
  | [] => Char (fun _ => false)
  | [r] => r
  | r :: l' => Alt r (alts l')
  end.

Definition lit (s : string) : regex := seqs (map chr (chars s)).
Definition litCI (s : string) : regex := seqs (map chrCI (chars s)).
Definition plus (r : regex) : regex := Seq r (Star true r).
Definition plusLazy (r : regex) : regex := Seq r (Star false r).
Definition opt (r : regex) : regex := Alt r Empty.

End Regex.

(** ** The patterns of the source *)

Module Patterns.
Import Js Regex.

Definition wordOr (s : string) : regex :=
  Char (fun x => isWordChar x || existsb (Ascii.eqb x) (chars s)).
Definition digitOr (s : string) : regex :=
  Char (fun x => isDigit x || existsb (Ascii.eqb x) (chars s)).
Definition noneOf (s : string) : regex :=
  Char (fun x => negb (existsb (Ascii.eqb x) (chars s))).

(** [/^(\d+) token-based usage calls to/] (api.ts, calculatePaddingWidths) *)
Definition tokenBasedPrefix : regex :=
  seqs [Bol; Group 1 (plus digit); lit " token-based usage calls to"].

(** [/^(\d+)/] *)
Definition leadingDigits : regex :=
  seqs [Bol; Group 1 (plus digit)].

(** [/^(\d+) token-based usage calls to ([\w.-]+), totalling: \$(?:[\d.]+)/] *)
Definition tokenBased : regex :=
  seqs [Bol; Group 1 (plus digit); lit " token-based usage calls to ";
        Group 2 (plus (wordOr ".-")); lit ", totalling: $";
        plus (digitOr ".")].

(** [/^(\d+)\s+(.+?)(?: request| calls)?(?: beyond|\*| per|$)/i] *)
Definition original : regex :=
  seqs [Bol; Group 1 (plus digit); plus space; Group 2 (plusLazy dot);
        opt (alts [litCI " request"; litCI " calls"]);
        alts [litCI " beyond"; lit "*"; litCI " per"; Eol]].

(** [genericModelPattern]:
    [/\b(?:discounted\s+)?(claude-(?:3-(?:opus|sonnet|haiku)|3\.[57]-sonnet(?:-[\w-]+)?(?:-max)?|4-sonnet(?:-thinking)?)|gpt-(?:4(?:\.\d+|o-128k|-preview)?|3\.5-turbo)|gemini-(?:1\.5-flash-500k|2[.-]5-pro-(?:exp-\d{2}-\d{2}|preview-\d{2}-\d{2}|exp-max))|o[134](?:-mini)?)\b/i] *)
Definition genericModelPattern : regex :=
  seqs [
    WordBoundary;
    opt (seqs [litCI "discounted"; plus space]);
    Group 1 (alts [
      seqs [litCI "claude-"; alts [
        seqs [litCI "3-"; alts [litCI "opus"; litCI "sonnet"; litCI "haiku"]];
        seqs [litCI "3."; oneOf "57"; litCI "-sonnet";
              opt (seqs [lit "-"; plus (wordOr "-")]);
              opt (litCI "-max")];
        seqs [litCI "4-sonnet"; opt (litCI "-thinking")]]];
      seqs [litCI "gpt-"; alts [
        seqs [lit "4";
              opt (alts [seqs [lit "."; plus digit]; litCI "o-128k";
                         litCI "-preview"])];
        litCI "3.5-turbo"]];
      seqs [litCI "gemini-"; alts [
        litCI "1.5-flash-500k";
        seqs [lit "2"; oneOf ".-"; litCI "5-pro-"; alts [
          seqs [litCI "exp-"; digit; digit; lit "-"; digit; digit];
          seqs [litCI "preview-"; digit; digit; lit "-"; digit; digit];
          litCI "exp-max"]]]];
      seqs [litCI "o"; oneOf "134"; opt (litCI "-mini")]]);
    WordBoundary].

(** [/extra fast premium requests? \(([^)]+)\)/i] *)
Definition extraFast : regex :=
  seqs [litCI "extra fast premium request"; opt (chrCI "s"); lit " (";
        Group 1 (plus (noneOf ")")); lit ")"].

(** [/^(\d+) token-based usage calls to ([\w.-]+),/i] (updateStats.ts) *)
Definition tokenBasedDesc : regex :=
  seqs [Bol; Group 1 (plus digit); litCI " token-based usage calls to ";
        Group 2 (plus (wordOr ".-")); lit ","].

(** [/^(\d+)\s+([\w.-]+)/i] *)
Definition simpleDesc : regex :=
  seqs [Bol; Group 1 (plus digit); plus space; Group 2 (plus (wordOr ".-"))].

(** [/requests?|calls?|beyond|\*|per|,$/gi] *)
Definition suffixWords : regex :=
  alts [seqs [litCI "request"; opt (chrCI "s")];
        seqs [litCI "call"; opt (chrCI "s")];
        litCI "beyond"; lit "*"; litCI "per"; seqs [lit ","; Eol]].

(** [/^\*\*(\d+)\*\*/] *)
Definition boldCount : regex :=
  seqs [Bol; lit "**"; Group 1 (plus digit); lit "**"].

End Patterns.

(** ** Numbers, as the JavaScript runtime treats them *)

Module Num.
Import Js.

Definition nan : float := PrimFloat.nan.

(** The Number value of an integer (round to nearest, ties to even). *)
Definition ofZ (z : Z) : float := SF2Prim (binary_normalize prec emax z 0 false).

Definition ofNat (n : nat) : float := ofZ (Z.of_nat n).

Definition decimal (n : Z) : string :=
  DecimalString.NilZero.string_of_uint (N.to_uint (Z.to_N n)).

Definition digitValue (c : ascii) : Z := Z.of_N (code c) - 48.

Definition digitsToZ (l : list ascii) : Z :=
  fold_left (fun acc c => acc * 10 + digitValue c)%Z l 0%Z.

Fixpoint takeWhile (p : ascii -> bool) (l : list ascii) : list ascii :=
  match l with
  | [] => []
  | c :: l' => if p c then c :: takeWhile p l' else []
  end.

(** [Number.parseInt(s)], radix 10: leading white space, an optional sign,
    then the longest prefix of decimal digits; [NaN] when there is none. *)
Definition parseInt (s : string) : float :=
  let l := dropWhile isSpace (chars s) in
  let '(neg, l) :=
    match l with
    | "-"%char :: l' => (true, l')
    | "+"%char :: l' => (false, l')
    | _ => (false, l)
    end in
  match takeWhile isDigit l with
  | [] => nan
  | ds => let v := ofZ (digitsToZ ds) in if neg then PrimFloat.opp v else v
  end.

(** [Math.abs], [Math.max] of two arguments. *)
Definition abs (x : float) : float := PrimFloat.abs x.

Definition max (a b : float) : float :=
  if PrimFloat.is_nan a || PrimFloat.is_nan b then nan
  else if PrimFloat.ltb a b then b
  else if PrimFloat.ltb b a then a
  else if PrimFloat.is_zero a && PrimFloat.get_sign a then b
  else a.

(** A positive finite number [m * 2^e] as a fraction. *)
Definition fraction (m : positive) (e : Z) : Z * Z :=
  if (0 <=? e)%Z then (Z.pos m * 2 ^ e, 1)%Z else (Z.pos m, 2 ^ (- e))%Z.

(** [Math.round]: the nearest integer, a tie going towards +infinity. *)
Definition round (x : float) : float :=
  match Prim2SF x with
  | S754_finite s m e =>
      if (0 <=? e)%Z then x
      else
        let d := (2 ^ (- e))%Z in
        let n := if s then (- Z.pos m)%Z else Z.pos m in
        let r := ((2 * n + d) / (2 * d))%Z in
        if (r =? 0)%Z then (if s then PrimFloat.opp PrimFloat.zero else PrimFloat.zero)
        else ofZ r
  | _ => x
  end.

(** Multiply the fraction [n/d] by [10^q]. *)
Definition scale10 (nd : Z * Z) (q : Z) : Z * Z :=
  let '(n, d) := nd in
  if (0 <=? q)%Z then (n * 10 ^ q, d)%Z else (n, d * 10 ^ (- q))%Z.

Definition floorFrac (nd : Z * Z) : Z := (fst nd / snd nd)%Z.

(** The Number value of the decimal [s * 10^p], for [s > 0]. *)
Definition ofDecimal (s : Z) (p : Z) : float :=
  if (0 <=? p)%Z then ofZ (s * 10 ^ p)
  else SF2Prim (SFdiv prec emax (S754_finite false (Z.to_pos s) 0)
                                (S754_finite false (Z.to_pos (10 ^ (- p))) 0)).

(** The [n] with [10^(n-1) <= x < 10^n], for the fraction [x > 0]. *)
Fixpoint exponentBelow (fuel : nat) (nd : Z * Z) (j : Z) : Z :=
  match fuel with
  | O => (1 - j)%Z
  | S fuel' =>
      if (snd nd <=? fst nd * 10 ^ j)%Z then (1 - j)%Z
      else exponentBelow fuel' nd (j + 1)
  end.
Definition decimalExponent (nd : Z * Z) : Z :=
  if (snd nd <=? fst nd)%Z
  then Z.of_nat (String.length (decimal (floorFrac nd)))
  else exponentBelow 400 nd 1.

Fixpoint stripZeros (l : list ascii) : list ascii :=
  match l with
  | "0"%char :: l' => stripZeros l'
  | _ => l
  end.

(** The shortest digits [s] (and the exponent [n]) with [s * 10^(n-k)]
    rounding to [x]: step 5 of Number::toString. *)
Fixpoint shortestFrom (fuel : nat) (x : float) (nd : Z * Z) (n0 k : Z)
  : list ascii * Z :=
  let y := scale10 nd (k - n0) in
  let lo := floorFrac y in
  let hi := (lo + 1)%Z in
  let okLo := (0 <? lo)%Z && PrimFloat.eqb (ofDecimal lo (n0 - k)) x in
  let okHi := PrimFloat.eqb (ofDecimal hi (n0 - k)) x in
  let pick (s : Z) :=
    let ds := chars (decimal s) in
    (rev (stripZeros (rev ds)), (n0 + Z.of_nat (length ds) - k)%Z) in
  match fuel with
  | O => pick lo
  | S fuel' =>
      if okLo && okHi then
        (if (2 * fst y <=? (2 * lo + 1) * snd y)%Z then pick lo else pick hi)
      else if okLo then pick lo
      else if okHi then pick hi
      else shortestFrom fuel' x nd n0 (k + 1)
  end.

Definition zeros (n : Z) : string := str (replicate (Z.to_nat n) "0"%char).

(** Number::toString, radix 10. *)
Definition toString (x : float) : string :=
  match Prim2SF x with
  | S754_nan => "NaN"
  | S754_zero _ => "0"
  | S754_infinity s => if s then "-Infinity" else "Infinity"
  | S754_finite s m e =>
      let nd := fraction m e in
      let '(ds, n) := shortestFrom 17 (PrimFloat.abs x) nd (decimalExponent nd) 1 in
      let k := Z.of_nat (length ds) in
      let body :=
        if (k <=? n)%Z && (n <=? 21)%Z then str ds +:+ zeros (n - k)
        else if (0 <? n)%Z && (n <=? 21)%Z then
          str (take (Z.to_nat n) ds) +:+ "." +:+ str (drop (Z.to_nat n) ds)
        else if (-6 <? n)%Z && (n <=? 0)%Z then "0." +:+ zeros (- n) +:+ str ds
        else
          let ex := (n - 1)%Z in
          let sg := if (ex <? 0)%Z then "-" else "+" in
          match ds with
          | [d] => str [d] +:+ "e" +:+ sg +:+ decimal (Z.abs ex)
          | d :: tl => str [d] +:+ "." +:+ str tl +:+ "e" +:+ sg +:+ decimal (Z.abs ex)
          | [] => ""
          end in
      (if s then "-" else "") +:+ body
  end.

(** [x.toFixed(f)] *)
Definition toFixed (f : nat) (x : float) : string :=
  match Prim2SF x with
  | S754_finite s m e =>
      if PrimFloat.leb (ofZ (10 ^ 21)) (PrimFloat.abs x) then toString x
      else
        let y := scale10 (fraction m e) (Z.of_nat f) in
        let n := ((2 * fst y + snd y) / (2 * snd y))%Z in
        let ds := chars (decimal n) in
        let ds := replicate (S f - length ds) "0"%char ++ ds in
        let k := length ds in
        (if s then "-" else "") +:+ str (take (k - f) ds)
          +:+ (if Nat.eqb f 0 then "" else "." +:+ str (drop (k - f) ds))
  | S754_zero _ =>
      "0" +:+ (if Nat.eqb f 0 then "" else "." +:+ str (replicate f "0"%char))
  | _ => toString x
  end.

End Num.

(** ** The monthly invoice and the usage items built from it
    (src/services/api.ts) *)

Module Invoice.

(** [cents?: number]: the property may be missing, present and
    [undefined], or a number. *)
Inductive Cents : Type :=
| CentsAbsent
| CentsUndefined
| CentsNumber (c : float).

(** One line of the invoice feed: [{ description: string; cents?: number }]. *)
Record Line : Type := MkLine {
  description : string;
  cents : Cents;
}.

(** [MonthlyInvoiceApiResponse] *)
Record Response : Type := MkResponse {
  items : option (list Line);
  hasUnpaidMidMonthInvoice : option bool;
}.

(** [Object.hasOwn(item, "cents")] *)
Definition hasOwnCents (item : Line) : bool :=
  match cents item with CentsAbsent => false | _ => true end.

End Invoice.

(** ** The shapes of the remote feeds and of the cache files
    (what the code reads of the types of src/interfaces/types) *)

Module Types.

(** The usage of one model: [{ numRequests, maxRequestUsage }]. *)
Record ModelUsage : Type := MkModelUsage {
  numRequests : float;
  maxRequestUsage : float;
}.

(** [CursorUsageResponse]: the ["gpt-4"] entry and [startOfMonth]. *)
Record CursorUsageResponse : Type := MkCursorUsageResponse {
  gpt4 : option ModelUsage;
  startOfMonth : string;
}.

Record Team : Type := MkTeam { id : Z }.

(** [TeamInfo]: [{ teams?: Team[] }]. *)
Record TeamInfo : Type := MkTeamInfo { teams : option (list Team) }.

(** [TeamMemberInfo]: the caller's member id and the member list. *)
Record TeamMemberInfo : Type := MkTeamMemberInfo {
  userId : Z;
  teamMembers : list Z;
}.

(** An entry of a member's [usageData]. *)
Record ModelTypeUsage : Type := MkModelTypeUsage {
  modelType : string;
  memberNumRequests : option float;
  memberMaxRequestUsage : float;
}.

Record MemberUsage : Type := MkMemberUsage {
  memberId : Z;
  usageData : list ModelTypeUsage;
}.

(** [TeamUsageResponse] *)
Record TeamUsageResponse : Type := MkTeamUsageResponse {
  teamMemberUsage : list MemberUsage;
}.

(** [UsageLimitResponse] *)
Record UsageLimitResponse : Type := MkUsageLimitResponse {
  noUsageBasedAllowed : option bool;
  hardLimit : option float;
}.

(** [UserCache], the record of user-cache.json. *)
Record UserCache : Type := MkUserCache {
  cacheUserId : Z;
  cacheJwtSub : option string;
  cacheIsTeamMember : bool;
  cacheTeamId : option Z;
  lastChecked : float;
  cacheStartOfMonth : string;
}.

(** [CurrencyRates]: [{ date, usd: { code: rate } }]; [usd] is missing in
    a malformed payload. *)
Record CurrencyRates : Type := MkCurrencyRates {
  date : string;
  usd : option (gmap string float);
}.

(** [CurrencyCache], the record of currency-rates.json. *)
Record CurrencyCache : Type := MkCurrencyCache {
  rates : CurrencyRates;
  timestamp : float;
}.

(** What [new Date()] is read for. *)
Record Date : Type := MkDate {
  getFullYear : Z;
  getMonth : Z;       (* 0 .. 11 *)
  getDate : Z;        (* 1 .. 31 *)
}.

End Types.

(** ** Effects: the world an [async] function runs in *)

Module Eff.
Import Types.

(** A thrown value: its message and, for an error of the HTTP client, the
    status of the response. *)
Record Error : Type := MkError {
  message : string;
  status : option Z;
}.

Inductive Outcome (A : Type) : Type :=
| Returned (a : A)
| Thrown (e : Error).
Arguments Returned {A} a.
Arguments Thrown {A} e.

Inductive CacheFile : Type := UserCacheFile | CurrencyCacheFile.

Inductive Request : Type :=
| GetUsage (user token : string)                 (* GET /api/usage *)
| PostTeams (token : string)                     (* POST /api/dashboard/teams *)
| PostTeam (teamId : Z) (token : string)         (* POST /api/dashboard/team *)
| PostTeamUsage (teamId : Z) (token : string)    (* POST /api/dashboard/get-team-usage *)
| PostHardLimit (token : string)                 (* POST /api/dashboard/get-hard-limit *)
| PostMonthlyInvoice (month year : Z) (token : string)
                                                 (* POST /api/dashboard/get-monthly-invoice *)
| GetCurrencyRates.                              (* GET CURRENCY_API_URL *)

Inductive Event : Type :=
| Http (r : Request)
| FileExists (f : CacheFile)
| FileRead (f : CacheFile)
| FileWrite (f : CacheFile).

(** A cache file: absent, present but not readable as the expected JSON,
    or holding a record. *)
Inductive File (A : Type) : Type :=
| Missing
| Unreadable
| Stored (a : A).
Arguments Missing {A}.
Arguments Unreadable {A}.
Arguments Stored {A} a.

Record World : Type := MkWorld {
  now : float;                                      (* Date.now() *)
  today : Date;                                     (* new Date() *)
  userCacheFile : File UserCache;
  currencyCacheFile : File CurrencyCache;
  writable : CacheFile -> bool;                     (* does writeFileSync succeed *)
  usageEndpoint : string -> string -> Outcome CursorUsageResponse;
  teamsEndpoint : string -> Outcome TeamInfo;
  teamEndpoint : Z -> string -> Outcome TeamMemberInfo;
  teamUsageEndpoint : Z -> string -> Outcome TeamUsageResponse;
  hardLimitEndpoint : string -> Outcome UsageLimitResponse;
  invoiceEndpoint : Z -> Z -> string -> Outcome Invoice.Response;
  ratesEndpoint : Outcome CurrencyRates;
  trace : list Event;                               (* the I/O done, oldest first *)
}.

Definition M (A : Type) : Type := World -> Outcome A * World.

Definition ret {A} (a : A) : M A := fun w => (Returned a, w).
Definition throw {A} (e : Error) : M A := fun w => (Thrown e, w).
Definition bind {A B} (m : M A) (f : A -> M B) : M B :=
  fun w =>
    match m w with
    | (Returned a, w') => f a w'
    | (Thrown e, w') => (Thrown e, w')
    end.
(** [try { m } catch (error) { h error }] *)
Definition tryCatch {A} (m : M A) (h : Error -> M A) : M A :=
  fun w =>
    match m w with
    | (Returned a, w') => (Returned a, w')
    | (Thrown e, w') => h e w'
    end.
(** A function that throws synchronously, used inside an [async] one. *)
Definition lift {A} (o : Outcome A) : M A := fun w => (o, w).

Declare Scope eff_scope.
Delimit Scope eff_scope with eff.
Notation "x <- m ;; k" := (bind m (fun x => k))
  (at level 100, m at next level, right associativity) : eff_scope.
Notation "m ;;; k" := (bind m (fun _ => k))
  (at level 100, right associativity) : eff_scope.

Definition record (e : Event) (w : World) : World :=
  MkWorld (now w) (today w) (userCacheFile w) (currencyCacheFile w) (writable w)
    (usageEndpoint w) (teamsEndpoint w) (teamEndpoint w) (teamUsageEndpoint w)
    (hardLimitEndpoint w) (invoiceEndpoint w) (ratesEndpoint w) (trace w ++ [e]).

Definition setUserCacheFile (c : UserCache) (w : World) : World :=
  MkWorld (now w) (today w) (Stored c) (currencyCacheFile w) (writable w)
    (usageEndpoint w) (teamsEndpoint w) (teamEndpoint w) (teamUsageEndpoint w)
    (hardLimitEndpoint w) (invoiceEndpoint w) (ratesEndpoint w) (trace w).

Definition setCurrencyCacheFile (c : CurrencyCache) (w : World) : World :=
  MkWorld (now w) (today w) (userCacheFile w) (Stored c) (writable w)
    (usageEndpoint w) (teamsEndpoint w) (teamEndpoint w) (teamUsageEndpoint w)
    (hardLimitEndpoint w) (invoiceEndpoint w) (ratesEndpoint w) (trace w).

(** The answer of the remote service to a request. *)
Definition request {A} (r : Request) (answer : World -> Outcome A) : M A :=
  fun w => (answer w, record (Http r) w).

(** [fs.existsSync], [JSON.parse(fs.readFileSync(..))] and
    [fs.writeFileSync(.., JSON.stringify(..))] on the two cache files. *)
Definition fileError (what : string) : Error := MkError what None.

Definition existsUserCache : M bool :=
  fun w => (Returned (match userCacheFile w with Missing => false | _ => true end),
            record (FileExists UserCacheFile) w).
Definition readUserCache : M UserCache :=
  fun w => (match userCacheFile w with
            | Stored c => Returned c
            | _ => Thrown (fileError "cannot read user-cache.json")
            end, record (FileRead UserCacheFile) w).
Definition writeUserCache (c : UserCache) : M unit :=
  fun w => if writable w UserCacheFile
           then (Returned tt, record (FileWrite UserCacheFile) (setUserCacheFile c w))
           else (Thrown (fileError "cannot write user-cache.json"), w).

Definition existsCurrencyCache : M bool :=
  fun w => (Returned (match currencyCacheFile w with Missing => false | _ => true end),
            record (FileExists CurrencyCacheFile) w).
Definition readCurrencyCache : M CurrencyCache :=
  fun w => (match currencyCacheFile w with
            | Stored c => Returned c
            | _ => Thrown (fileError "cannot read currency-rates.json")
            end, record (FileRead CurrencyCacheFile) w).
Definition writeCurrencyCache (c : CurrencyCache) : M unit :=
  fun w => if writable w CurrencyCacheFile
           then (Returned tt, record (FileWrite CurrencyCacheFile) (setCurrencyCacheFile c w))
           else (Thrown (fileError "cannot write currency-rates.json"), w).

Definition dateNow : M float := fun w => (Returned (now w), w).
Definition newDate : M Date := fun w => (Returned (today w), w).

Definition typeError {A} (what : string) : M A :=
  throw (MkError ("Cannot read properties of undefined (reading '" +:+ what +:+ "')") None).

(** [getErrorMessage(error)] of interfaces/errors.ts, on a thrown [Error]. *)
Definition getErrorMessage (e : Error) : string := message e.

End Eff.

(** ** Team membership (src/services/team.ts) *)

Module Team.
Import Js Types Eff.
Local Open Scope eff_scope.

(** What [checkTeamMembership] returns. *)
Record Membership : Type := MkMembership {
  isTeamMember : bool;
  teamId : option Z;
  userId : option Z;
  startOfMonth : string;
}.

(** What [extractUserUsage] returns. *)
Record UserUsage : Type := MkUserUsage {
  numRequests : float;
  maxRequestUsage : float;
}.

Definition truthyId (i : option Z) : bool :=
  match i with Some z => negb (z =? 0)%Z | None => false end.

(** [loadUserCache(context)] *)
Definition loadUserCache : M (option UserCache) :=
  tryCatch
    (present <- existsUserCache ;;
     if present : bool
     then (cache <- readUserCache ;; ret (Some cache))
     else ret None)
    (fun _ => ret None).

(** [saveUserCache(context, cache)] *)
Definition saveUserCache (cache : UserCache) : M unit :=
  tryCatch (writeUserCache cache) (fun _ => ret tt).

(** The cached answer, when the cache is of the same subject and has a
    start of month. *)
Definition cachedMembership (jwtSub : option string) (cache : option UserCache)
  : option Membership :=
  match cache with
  | Some c =>
      if bool_decide (cacheJwtSub c = jwtSub) && truthy (cacheStartOfMonth c)
      then Some {| isTeamMember := cacheIsTeamMember c;
                   teamId := cacheTeamId c;
                   userId := Some (cacheUserId c);
                   startOfMonth := cacheStartOfMonth c |}
      else None
  | None => None
  end.

Section WithJwt.

(** [jwt.decode(token, { complete: true })?.payload?.sub] of the
    jsonwebtoken library. *)
Variable decodeSub : option string -> option string.

(** [checkTeamMembership(token, context)] *)
Definition checkTeamMembership (token : string) : M Membership :=
  tryCatch
    (let jwtToken := split token "%3A%3A" !! 1%nat in
     let jwtSub := decodeSub jwtToken in
     cache <- loadUserCache ;;
     match cachedMembership jwtSub cache with
     | Some m => ret m
     | None =>
         let tokenUserId := default "" (split token "%3A%3A" !! 0%nat) in
         usageResponse <- request (GetUsage tokenUserId token)
                            (fun w => usageEndpoint w tokenUserId token) ;;
         let startOfMonth := Types.startOfMonth usageResponse in
         response <- request (PostTeams token) (fun w => teamsEndpoint w token) ;;
         let isTeamMember := (0 <? length (default [] (teams response)))%nat in
         let teamId := id <$> (teams response ≫= head) in
         teamUserId <-
           match teamId with
           | Some tid =>
               if isTeamMember && truthyId teamId
               then (teamResponse <- request (PostTeam tid token)
                                       (fun w => teamEndpoint w tid token) ;;
                     ret (Some (Types.userId teamResponse)))
               else ret None
           | None => ret None
           end ;;
         lastChecked <- dateNow ;;
         let cacheData := {| cacheUserId := default 0%Z teamUserId;
                             cacheJwtSub := jwtSub;
                             cacheIsTeamMember := isTeamMember;
                             cacheTeamId := teamId;
                             lastChecked := lastChecked;
                             cacheStartOfMonth := startOfMonth |} in
         saveUserCache cacheData ;;;
         ret {| isTeamMember := isTeamMember;
                teamId := teamId;
                userId := teamUserId;
                startOfMonth := startOfMonth |}
     end)
    (fun error => throw error).

End WithJwt.

(** [getTeamUsage(token, teamId)] *)
Definition getTeamUsage (token : string) (teamId : Z) : M TeamUsageResponse :=
  tryCatch
    (request (PostTeamUsage teamId token) (fun w => teamUsageEndpoint w teamId token))
    (fun error => throw error).

(** [extractUserUsage(teamUsage, userId)] *)
Definition extractUserUsage (teamUsage : TeamUsageResponse) (userId : Z)
  : Outcome UserUsage :=
  match find (fun member => (memberId member =? userId)%Z) (teamMemberUsage teamUsage) with
  | None => Thrown (MkError "User usage data not found in team usage response" None)
  | Some userUsage =>
      match find (fun data => String.eqb (modelType data) "gpt-4") (usageData userUsage) with
      | None => Thrown (MkError "GPT-4 usage data not found for user" None)
      | Some gpt4Usage =>
          Returned {| numRequests := default 0%float (memberNumRequests gpt4Usage);
                      maxRequestUsage := memberMaxRequestUsage gpt4Usage |}
      end
  end.

End Team.

Module Api.
Import Js Regex Patterns.

(** [UsageItem]; the two last fields are missing on a payment item. *)
Record UsageItem : Type := MkUsageItem {
  calculation : string;
  totalDollars : string;
  description : string;
  modelNameForTooltip : option string;
  isDiscounted : option bool;
}.

(** What [fetchMonthData] returns. *)
Record MonthData : Type := MkMonthData {
  items : list UsageItem;
  hasUnpaidMidMonthInvoice : bool;
  midMonthPayment : float;
}.

Definition midMonthMarker : string := "Mid-month usage paid".

(** What [checkUsageBasedStatus] returns: [{ isEnabled, limit? }]. *)
Module UsageStatus.
Record t : Type := Mk {
  isEnabled : bool;
  limit : option float;
}.
End UsageStatus.

(** [premiumRequests] of [CursorStats]. *)
Record PremiumRequests : Type := MkPremiumRequests {
  current : float;
  limit : float;
  startOfMonth : string;
}.

(** [currentMonth] and [lastMonth] of [CursorStats]. *)
Record MonthStats : Type := MkMonthStats {
  month : Z;
  year : Z;
  usageBasedPricing : MonthData;
}.

Record CursorStats : Type := MkCursorStats {
  currentMonth : MonthStats;
  lastMonth : MonthStats;
  premiumRequests : PremiumRequests;
}.

Definition usageBasedBillingDay : Z := 3.

(** The two billing periods [fetchCursorStats] derives from the current
    date: (month, year) of the active one and of the one before it. *)
Definition usageBasedPeriods (currentDate : Types.Date) : (Z * Z) * (Z * Z) :=
  let usageBasedCurrentMonth := (Types.getMonth currentDate + 1)%Z in
  let usageBasedCurrentYear := Types.getFullYear currentDate in
  let '(usageBasedCurrentMonth, usageBasedCurrentYear) :=
    if (Types.getDate currentDate <? usageBasedBillingDay)%Z then
      let m := if (usageBasedCurrentMonth =? 1)%Z then 12%Z
               else (usageBasedCurrentMonth - 1)%Z in
      (m, if (m =? 12)%Z then (usageBasedCurrentYear - 1)%Z else usageBasedCurrentYear)
    else (usageBasedCurrentMonth, usageBasedCurrentYear) in
  let usageBasedLastMonth :=
    if (usageBasedCurrentMonth =? 1)%Z then 12%Z else (usageBasedCurrentMonth - 1)%Z in
  let usageBasedLastYear :=
    if (usageBasedCurrentMonth =? 1)%Z then (usageBasedCurrentYear - 1)%Z
    else usageBasedCurrentYear in
  ((usageBasedCurrentMonth, usageBasedCurrentYear),
   (usageBasedLastMonth, usageBasedLastYear)).

Section WithLocale.

(** The lookup of localised strings ([t] of utils/i18n). *)
Variable t : string -> string.

(** [processMidMonthPayment(item, currentMidMonthTotal)] *)
Definition processMidMonthPayment (item : Invoice.Line)
    (currentMidMonthTotal : float) : option (float * UsageItem) :=
  if negb (includes (Invoice.description item) midMonthMarker) then None
  else
    match Invoice.cents item with
    | Invoice.CentsNumber c =>
        let paymentAmount := (Num.abs c / 100)%float in
        let updatedTotal := (currentMidMonthTotal + paymentAmount)%float in
        let usageItem := {|
          calculation := t "api.midMonthPayment" +:+ ": $" +:+ Num.toFixed 2 updatedTotal;
          totalDollars := "-$" +:+ Num.toFixed 2 updatedTotal;
          description := Invoice.description item;
          modelNameForTooltip := None;
          isDiscounted := None |} in
        Some (updatedTotal, usageItem)
    | _ => None
    end.

(** The request count [calculatePaddingWidths] reads off a description. *)
Definition paddingRequestCount (desc : string) : float :=
  match capture 1 (exec tokenBasedPrefix desc) with
  | Some d => Num.parseInt d
  | None =>
      match capture 1 (exec leadingDigits desc) with
      | Some d => Num.parseInt d
      | None => 0%float
      end
  end.

(** One turn of the first pass: the running maxima of the request count
    and of the cost per request. *)
Definition paddingStep (acc : float * float) (item : Invoice.Line) : float * float :=
  let '(maxRequestCount, maxCostCentsForPadding) := acc in
  match Invoice.cents item with
  | Invoice.CentsNumber c =>
      if includes (Invoice.description item) midMonthMarker then acc
      else
        let currentItemRequestCount := paddingRequestCount (Invoice.description item) in
        if (0 <? currentItemRequestCount)%float then
          let costPerRequestCents := (c / currentItemRequestCount)%float in
          (Num.max maxRequestCount currentItemRequestCount,
           Num.max maxCostCentsForPadding costPerRequestCents)
        else acc
  | _ => acc
  end.

(** [calculatePaddingWidths(items)] *)
Definition calculatePaddingWidths (items : list Invoice.Line) : nat * nat :=
  let '(maxRequestCount, maxCostCentsForPadding) :=
    fold_left paddingStep items (0%float, 0%float) in
  let paddingWidth :=
    if (0 <? maxRequestCount)%float
    then String.length (Num.toString maxRequestCount) else 1%nat in
  let costPaddingWidth :=
    String.length (Num.toFixed 3 (maxCostCentsForPadding / 100)%float) in
  (paddingWidth, costPaddingWidth).

(** An entry of [modelParsingStrategies]. *)
Record Strategy : Type := MkStrategy {
  condition : unit -> bool;
  parser : unit -> option string * bool;   (* modelName, isToolCall *)
}.

Definition modelParsingStrategies (desc : string)
    (specificModelMatch : option rmatched) : list Strategy :=
  [ {| condition := fun _ => includes desc "tool calls";
       parser := fun _ => (Some (t "api.toolCalls"), true) |};
    {| condition := fun _ => matched specificModelMatch;
       parser := fun _ =>
         (match specificModelMatch with
          | Some m => group 1 m
          | None => Some (t "statusBar.unknownModel")
          end, false) |};
    {| condition := fun _ => includes desc "extra fast premium request";
       parser := fun _ =>
         let extraFastModelMatch := exec extraFast desc in
         (match capture 1 extraFastModelMatch with
          | Some name => Some name
          | None => Some (t "api.fastPremium")
          end, false) |} ].

(** The model label of a line that the general pattern matched: the first
    strategy whose condition holds, else the unknown-model label. *)
Definition resolveModel (desc : string) : option string * bool :=
  let specificModelMatch := exec genericModelPattern desc in
  match find (fun strategy => condition strategy tt)
             (modelParsingStrategies desc specificModelMatch) with
  | Some matchedStrategy => parser matchedStrategy tt
  | None => (Some (t "statusBar.unknownModel"), false)
  end.

(** What the loop of [fetchMonthData] reads off a description. *)
Record Parsed : Type := MkParsed {
  requestCount : float;
  parsedModelName : option string;
  isToolCall : bool;
  isTotallingItem : bool;
}.

Definition parseDescription (desc : string) : option Parsed :=
  match exec tokenBased desc with
  | Some tokenBasedMatch =>
      Some {| requestCount := Num.parseInt (default "" (group 1 tokenBasedMatch));
              parsedModelName := group 2 tokenBasedMatch;
              isToolCall := false;
              isTotallingItem := true |}
  | None =>
      match exec original desc with
      | Some originalMatch =>
          let '(name, tool) := resolveModel desc in
          Some {| requestCount := Num.parseInt (default "" (group 1 originalMatch));
                  parsedModelName := name;
                  isToolCall := tool;
                  isTotallingItem := false |}
      | None =>
          match exec leadingDigits desc with
          | Some fallbackCountMatch =>
              Some {| requestCount := Num.parseInt (default "" (group 1 fallbackCountMatch));
                      parsedModelName := Some (t "statusBar.unknownModel");
                      isToolCall := false;
                      isTotallingItem := false |}
          | None => None
          end
      end
  end.

(** The usage item of an ordinary line with [cents] and a parsed count. *)
Definition usageItemOf (paddingWidth costPaddingWidth : nat)
    (desc : string) (c : float) (p : Parsed) : UsageItem :=
  let costPerRequestCents := (c / requestCount p)%float in
  let totalDollars := (c / 100)%float in
  let paddedRequestCount := padStart0 (Num.toString (requestCount p)) paddingWidth in
  let costPerRequestDollarsFormatted :=
    padStart0 (Num.toFixed 3 (costPerRequestCents / 100)%float) costPaddingWidth in
  let tilde := if isTotallingItem p then "~" else "&nbsp;&nbsp;" in
  let itemUnit := t "api.requestUnit" in
  {| calculation :=
       "**" +:+ paddedRequestCount +:+ "** " +:+ itemUnit +:+ " @ **$"
            +:+ costPerRequestDollarsFormatted +:+ tilde +:+ "**";
     totalDollars := "$" +:+ Num.toFixed 2 totalDollars;
     description := desc;
     modelNameForTooltip := parsedModelName p;
     isDiscounted := Some (includes (toLowerCase desc) "discounted") |}.

(** One turn of the loop of [fetchMonthData] over the state
    [(usageItems, midMonthPayment)]. *)
Definition processItem (paddingWidth costPaddingWidth : nat)
    (acc : list UsageItem * float) (item : Invoice.Line) : list UsageItem * float :=
  let '(usageItems, midMonthPayment) := acc in
  if negb (Invoice.hasOwnCents item) then acc
  else
    match processMidMonthPayment item midMonthPayment with
    | Some (updatedTotal, usageItem) => (usageItems ++ [usageItem], updatedTotal)
    | None =>
        match Invoice.cents item with
        | Invoice.CentsNumber c =>
            match parseDescription (Invoice.description item) with
            | Some p =>
                if (requestCount p =? 0)%float then acc
                else (usageItems ++ [usageItemOf paddingWidth costPaddingWidth
                                        (Invoice.description item) c p],
                      midMonthPayment)
            | None => acc
            end
        | _ => acc
        end
    end.

(** The month record [fetchMonthData] builds from the invoice it fetched. *)
Definition buildMonthData (invoiceData : Invoice.Response) : MonthData :=
  let items := default [] (Invoice.items invoiceData) in
  let '(usageItems, midMonthPayment) :=
    match items with
    | [] => ([], 0%float)
    | _ :: _ =>
        let '(paddingWidth, costPaddingWidth) := calculatePaddingWidths items in
        fold_left (processItem paddingWidth costPaddingWidth) items ([], 0%float)
    end in
  {| items := usageItems;
     hasUnpaidMidMonthInvoice := default false (Invoice.hasUnpaidMidMonthInvoice invoiceData);
     midMonthPayment := midMonthPayment |}.

(** *** The functions that talk to the service *)

Import Eff.
Local Open Scope eff_scope.

(** [getCurrentUsageLimit(token)] *)
Definition getCurrentUsageLimit (token : string) : M Types.UsageLimitResponse :=
  tryCatch
    (request (PostHardLimit token) (fun w => hardLimitEndpoint w token))
    (fun error => throw error).

(** [checkUsageBasedStatus(token)] *)
Definition checkUsageBasedStatus (token : string) : M UsageStatus.t :=
  tryCatch
    (response <- getCurrentUsageLimit token ;;
     ret {| UsageStatus.isEnabled :=
              negb (default false (Types.noUsageBasedAllowed response));
            UsageStatus.limit := Types.hardLimit response |})
    (fun _ => ret {| UsageStatus.isEnabled := false; UsageStatus.limit := None |}).

(** [fetchMonthlyInvoiceData(token, month, year)]; [devDataPath] is empty. *)
Definition fetchMonthlyInvoiceData (token : string) (month year : Z)
  : M Invoice.Response :=
  request (PostMonthlyInvoice month year token)
          (fun w => invoiceEndpoint w month year token).

(** [fetchMonthData(token, month, year)] *)
Definition fetchMonthData (token : string) (month year : Z) : M MonthData :=
  tryCatch
    (invoiceData <- fetchMonthlyInvoiceData token month year ;;
     ret (buildMonthData invoiceData))
    (fun error => throw error).

(** [jwt.decode(..)?.payload?.sub] of the jsonwebtoken library. *)
Variable decodeSub : option string -> option string.

(** The premium quota of an individual: the ["gpt-4"] entry of /api/usage. *)
Definition individualPremiumRequests (token userId : string) : M PremiumRequests :=
  premiumResponse <- request (GetUsage userId token)
                       (fun w => usageEndpoint w userId token) ;;
  match Types.gpt4 premiumResponse with
  | Some gpt4 =>
      ret {| current := Types.numRequests gpt4;
             limit := Types.maxRequestUsage gpt4;
             startOfMonth := Types.startOfMonth premiumResponse |}
  | None => typeError "numRequests"
  end.

(** The premium quota of [fetchCursorStats]: of the team member when
    [teamInfo.isTeamMember && teamInfo.teamId && teamInfo.userId], else of
    the individual. *)
Definition fetchPremiumRequests (token userId : string)
    (teamInfo : Team.Membership) : M PremiumRequests :=
  let asMember :=
    if Team.isTeamMember teamInfo && Team.truthyId (Team.teamId teamInfo)
       && Team.truthyId (Team.userId teamInfo)
    then (Team.teamId teamInfo, Team.userId teamInfo) else (None, None) in
  match asMember with
  | (Some teamId, Some teamUserId) =>
      teamUsage <- Team.getTeamUsage token teamId ;;
      userUsage <- lift (Team.extractUserUsage teamUsage teamUserId) ;;
      ret {| current := Team.numRequests userUsage;
             limit := Team.maxRequestUsage userUsage;
             startOfMonth := Team.startOfMonth teamInfo |}
  | _ => individualPremiumRequests token userId
  end.

(** [fetchCursorStats(token)] *)
Definition fetchCursorStats (token : string) : M CursorStats :=
  let userId := default "" (split token "%3A%3A" !! 0%nat) in
  tryCatch
    (teamInfo <- Team.checkTeamMembership decodeSub token ;;
     premiumRequests <- fetchPremiumRequests token userId teamInfo ;;
     currentDate <- newDate ;;
     let '((usageBasedCurrentMonth, usageBasedCurrentYear),
           (usageBasedLastMonth, usageBasedLastYear)) :=
       usageBasedPeriods currentDate in
     currentMonthData <- fetchMonthData token usageBasedCurrentMonth usageBasedCurrentYear ;;
     lastMonthData <- fetchMonthData token usageBasedLastMonth usageBasedLastYear ;;
     ret {| currentMonth := {| month := usageBasedCurrentMonth;
                               year := usageBasedCurrentYear;
                               usageBasedPricing := currentMonthData |};
            lastMonth := {| month := usageBasedLastMonth;
                            year := usageBasedLastYear;
                            usageBasedPricing := lastMonthData |};
            premiumRequests := premiumRequests |})
    (fun error => throw error).

End WithLocale.

End Api.

(** ** Currency conversion (src/utils/currency.ts) *)

Module Currency.
Import Js Types Eff.
Local Open Scope eff_scope.

(** 24 hours, in milliseconds. *)
Definition CACHE_EXPIRY_MS : float := (24 * 60 * 60 * 1000)%float.

Definition symbolMap : list (string * string) :=
  [ ("USD", "$"); ("EUR", "€"); ("GBP", "£"); ("JPY", "¥"); ("AUD", "A$");
    ("CAD", "C$"); ("CHF", "CHF"); ("CNY", "¥"); ("INR", "₹"); ("MXN", "Mex$");
    ("BRL", "R$"); ("RUB", "₽"); ("KRW", "₩"); ("SGD", "S$"); ("NZD", "NZ$");
    ("TRY", "₺"); ("ZAR", "R"); ("SEK", "kr"); ("NOK", "kr"); ("DKK", "kr");
    ("HKD", "HK$"); ("TWD", "NT$"); ("PHP", "₱"); ("THB", "฿"); ("IDR", "Rp");
    ("VND", "₫"); ("ILS", "₪"); ("AED", "د.إ"); ("SAR", "﷼"); ("MYR", "RM");
    ("PLN", "zł"); ("CZK", "Kč"); ("HUF", "Ft"); ("RON", "lei"); ("BGN", "лв");
    ("HRK", "kn"); ("EGP", "E£"); ("QAR", "ر.ق"); ("KWD", "د.ك"); ("MAD", "د.م.") ].

(** [getCurrencySymbol(currencyCode)] *)
Definition getCurrencySymbol (currencyCode : string) : string :=
  match find (fun kv => String.eqb (fst kv) currencyCode) symbolMap with
  | Some kv => snd kv
  | None => currencyCode
  end.

(** [getCachedRates()] *)
Definition getCachedRates : M (option CurrencyRates) :=
  tryCatch
    (present <- existsCurrencyCache ;;
     if present : bool then
       cache <- readCurrencyCache ;;
       current <- dateNow ;;
       if (current - timestamp cache <? CACHE_EXPIRY_MS)%float
       then ret (Some (rates cache))
       else ret None
     else ret None)
    (fun _ => ret None).

(** [saveCurrencyCache(rates)] *)
Definition saveCurrencyCache (rates : CurrencyRates) : M unit :=
  tryCatch
    (current <- dateNow ;;
     writeCurrencyCache {| rates := rates; timestamp := current |})
    (fun _ => ret tt).

(** [fetchExchangeRates()] *)
Definition fetchExchangeRates : M CurrencyRates :=
  tryCatch
    (cachedRates <- getCachedRates ;;
     match cachedRates with
     | Some r => ret r
     | None =>
         response <- request GetCurrencyRates ratesEndpoint ;;
         (* Object.keys(response.data.usd) *)
         match usd response with
         | Some _ => saveCurrencyCache response ;;; ret response
         | None => typeError "usd"
         end
     end)
    (fun error =>
       throw (MkError ("Failed to fetch currency exchange rates: "
                         +:+ getErrorMessage error) None)).

(** What [convertAmount] returns. *)
Record Converted : Type := MkConverted {
  value : float;
  symbol : string;
}.

(** A rate read off the mapping is used unless it is falsy: missing, zero
    or [NaN]. *)
Definition usableRate (rate : option float) : option float :=
  match rate with
  | Some r => if PrimFloat.is_zero r || PrimFloat.is_nan r then None else Some r
  | None => None
  end.

(** [convertAmount(amount, targetCurrency)] *)
Definition convertAmount (amount : float) (targetCurrency : string) : M Converted :=
  tryCatch
    (if String.eqb targetCurrency "USD"
     then ret {| value := amount; symbol := "$" |}
     else
       rates <- fetchExchangeRates ;;
       match usd rates with
       | None => typeError (toLowerCase targetCurrency)
       | Some table =>
           match usableRate (table !! toLowerCase targetCurrency) with
           | None => ret {| value := amount; symbol := "$" |}
           | Some rate =>
               let convertedValue := (amount * rate)%float in
               let symbol := getCurrencySymbol targetCurrency in
               ret {| value := convertedValue; symbol := symbol |}
           end
       end)
    (fun _ => ret {| value := amount; symbol := "$" |}).

(** [formatCurrency(amount, currencyCode, decimals)] *)
Definition formatCurrency (amount : float) (currencyCode : string) (decimals : nat)
  : string :=
  let symbol := getCurrencySymbol currencyCode in
  if String.eqb currencyCode "JPY" || String.eqb currencyCode "KRW"
  then symbol +:+ Num.toString (Num.round amount)
  else symbol +:+ Num.toFixed decimals amount.

End Currency.

(** ** The aggregation of updateStats (src/utils/updateStats.ts) *)

Module UpdateStats.
Import Js Regex Patterns.

(** [premiumPercent] *)
Definition premiumPercent (stats : Api.CursorStats) : float :=
  Num.round ((Api.current (Api.premiumRequests stats)
              / Api.limit (Api.premiumRequests stats)) * 100)%float.

(** [activeMonthData]: the current month if it has data, else the last. *)
Definition activeMonthData (stats : Api.CursorStats) : Api.MonthStats :=
  if (0 <? length (Api.items (Api.usageBasedPricing (Api.currentMonth stats))))%nat
  then Api.currentMonth stats
  else Api.lastMonth stats.

(** *** Unknown models *)

(** The module state: [unknownModelNotificationShown] and the elements of
    the set [detectedUnknownModels], in the order they were added. *)
Record Tracker : Type := MkTracker {
  unknownModelNotificationShown : bool;
  detectedUnknownModels : list string;
}.

Definition initialTracker : Tracker := MkTracker false [].

(** [set.add(x)] on the elements of a [Set]. *)
Definition setAdd (x : string) (s : list string) : list string :=
  if existsb (String.eqb x) s then s else s ++ [x].

Definition veryGenericKeywords : list string :=
  [ "usage"; "calls"; "request"; "requests"; "cents"; "beyond"; "month"; "day";
    "january"; "february"; "march"; "april"; "may"; "june"; "july"; "august";
    "september"; "october"; "november"; "december"; "premium"; "extra"; "tool";
    "fast"; "thinking" ].

(** The term read off the description of an item the classifier left
    unknown, before the clean-up. *)
Definition rawTerm (item : Api.UsageItem) : string :=
  let desc := Api.description item in
  match capture 2 (exec tokenBasedDesc desc) with
  | Some m2 => trim m2
  | None =>
      match capture 1 (exec extraFast desc) with
      | Some m1 => trim m1
      | None =>
          match capture 2 (exec original desc) with
          | Some m2 =>
              let term := trim m2 in
              if default false (Api.isDiscounted item)
                 && startsWith (toLowerCase term) "discounted "
              then trim (substringFrom term 11)
              else term
          | None =>
              match capture 2 (exec simpleDesc desc) with
              | Some m2 => trim m2
              | None => ""
              end
          end
      end
  end.

(** The clean-up of the suffixes. *)
Definition cleanTerm (term : string) : string :=
  let term := trim (removeAll suffixWords term) in
  if endsWith (toLowerCase term) " usage"
  then trim (substring term 0 (String.length term - 6))
  else term.

(** [alreadyPresent]: some detected entry contains the term or is
    contained in it, case aside. *)
Definition alreadyPresent (detected : list string) (term : string) : bool :=
  existsb (fun d => includes (toLowerCase d) (toLowerCase term)
                    || includes (toLowerCase term) (toLowerCase d)) detected.

(** What the loop does with an extracted term: the guards, then the add. *)
Definition observe (detected : list string) (term : string) : list string :=
  if truthy term && (1 <? String.length term)%nat
     && negb (String.eqb (toLowerCase term) "token-based")
     && negb (String.eqb (toLowerCase term) "discounted")
  then
    let isVeryGeneric := existsb (String.eqb (toLowerCase term)) veryGenericKeywords in
    if negb isVeryGeneric then
      if negb (alreadyPresent detected term) then setAdd term detected
      else detected
    else detected
  else detected.

(** One turn of the loop over the displayed items, for the set. *)
Definition trackItem (detected : list string) (item : Api.UsageItem) : list string :=
  if includes (Api.description item) Api.midMonthMarker then detected
  else if truthy (Api.description item)
          && bool_decide (Api.modelNameForTooltip item = Some "unknown-model")
  then observe detected (cleanTerm (rawTerm item))
  else detected.

(** The notification at the end of [updateStats]: whether it is shown now,
    and the state after. *)
Definition notifyUnknownModels (tr : Tracker) : bool * Tracker :=
  if negb (unknownModelNotificationShown tr)
     && (0 <? length (detectedUnknownModels tr))%nat
  then (true, MkTracker true (detectedUnknownModels tr))
  else (false, tr).

End UpdateStats.

(** ** The session token (src/services/database.ts) *)

Module Database.
Import Js.

(** What [getCursorTokenFromDB] finds at the path of the state database. *)
Inductive TokenStore : Type :=
| NoDatabaseFile                 (* fs.existsSync(dbPath) is false *)
| Unopenable                     (* reading or opening the file throws *)
| NoTokenRow                     (* the query returns no row *)
| TokenRow (token : string).     (* the value of cursorAuth/accessToken *)

Section WithJwt.

(** [jwt.decode(token, { complete: true })?.payload?.sub], when it is a
    string. *)
Variable decodeSub : option string -> option string.

(** [getCursorTokenFromDB()] *)
Definition getCursorTokenFromDB (store : TokenStore) : option string :=
  match store with
  | TokenRow token =>
      match decodeSub (Some token) with
      | Some sub =>
          if truthy sub then
            (* the template renders a missing second part as "undefined" *)
            let userId := default "undefined" (split sub "|" !! 1%nat) in
            let sessionToken := userId +:+ "%3A%3A" +:+ token in
            Some sessionToken
          else None
      | None => None
      end
  | _ => None
  end.

End WithJwt.

End Database.

(** ** The billing portal link (src/services/api.ts, getStripeSessionUrl) *)

Module Stripe.
Import Js Regex Eff.

(** The double quote. *)
Definition quote : ascii := ascii_of_nat 34.

(** [getStripeSessionUrl(token)], from the answer of /api/stripeSession:
    the data with every double quote replaced by nothing (a global
    [replace]); an error is thrown again. *)
Definition getStripeSessionUrl (response : Outcome string) : Outcome string :=
  match response with
  | Returned data => Returned (removeAll (chr quote) data)
  | Thrown error => Thrown error
  end.

End Stripe.

(** ** The currencies offered (src/utils/currency.ts) *)

Module CurrencyList.

Definition SUPPORTED_CURRENCIES : list string :=
  [ "USD"; "EUR"; "GBP"; "JPY"; "AUD"; "CAD"; "CHF"; "CNY"; "INR"; "MXN";
    "BRL"; "RUB"; "KRW"; "SGD"; "NZD"; "TRY"; "ZAR"; "SEK"; "NOK"; "DKK";
    "HKD"; "TWD"; "PHP"; "THB"; "IDR"; "VND"; "ILS"; "AED"; "SAR"; "MYR";
    "PLN"; "CZK"; "HUF"; "RON"; "BGN"; "HRK"; "EGP"; "QAR"; "KWD"; "MAD" ].

End CurrencyList.

(** ** The log (src/utils/logger.ts) *)

Module Logger.
Import Js.

Definition MAX_LOG_HISTORY : nat := 1000.

(** The tags [log] lets through when logging is enabled. *)
Definition logTags : list string :=
  [ "[Initialization]"; "[Status Bar]"; "[Database]"; "[Auth]"; "[Stats]";
    "[API]"; "[GitHub]"; "[Panels]"; "[Command]"; "[Notifications]";
    "[Refresh]"; "[Settings]"; "[Critical]"; "[Deactivation]"; "[Team]";
    "[Cooldown]"; "[Currency]"; "[Report]" ].

(** [shouldLog] of [log(message, data, error)]. *)
Definition shouldLog (loggingEnabled : bool) (message : string) (error : bool) : bool :=
  error || (loggingEnabled && existsb (includes message) logTags).

(** The [data] argument: none, an object with what [JSON.stringify]
    makes of it, or another value with its [toString()]; [None] where the
    rendering throws. *)
Inductive LogData : Type :=
| NoData
| ObjectData (json : option string)
| ValueData (text : option string).

(** The line [safeLog] builds; [timestamp] is [new Date().toISOString()]. *)
Definition logLine (timestamp message : string) (data : LogData) (isError : bool)
  : string :=
  let logLevel := if isError then "ERROR" else "INFO" in
  let logMessage := "[" +:+ timestamp +:+ "] [" +:+ logLevel +:+ "] " +:+ message in
  match data with
  | NoData => logMessage
  | ObjectData (Some json) => logMessage +:+ String (ascii_of_nat 10) json
  | ValueData (Some text) => logMessage +:+ " " +:+ text
  | ObjectData None | ValueData None => logMessage +:+ " [Error stringifying data]"
  end.

(** [addToLogHistory(logMessage)]: the newest line first, at most
    [MAX_LOG_HISTORY] lines. *)
Definition addToLogHistory (logMessage : string) (logHistory : list string)
  : list string :=
  let logHistory := logMessage :: logHistory in
  if (MAX_LOG_HISTORY <? length logHistory)%nat
  then take MAX_LOG_HISTORY logHistory
  else logHistory.

(** [log(message, data, error)] on the history; [loggingEnabled] is the
    setting [cursorStats.enableLogging]. *)
Definition log (loggingEnabled : bool) (timestamp : string)
    (logHistory : list string) (message : string) (data : LogData) (error : bool)
  : list string :=
  if shouldLog loggingEnabled message error
  then addToLogHistory (logLine timestamp message data error) logHistory
  else logHistory.

(** [getLogHistory()] and [clearLogHistory()] *)
Definition getLogHistory (logHistory : list string) : list string := logHistory.
Definition clearLogHistory (logHistory : list string) : list string := [].

End Logger.

(** * The vocabulary of the statements

    The definitions below belong to the statements of the properties, not
    to the program: predicates over its data, the reading of the
    specification where a statement compares the code with it, and the
    inputs the evaluations are made on. *)

(** ** Worlds to evaluate the effectful functions in *)

Module Worlds.
Import Types Eff.

(** The error of a request that got no response. *)
Definition networkError : Error := MkError "Network Error" None.

(** No cache file, and a service that cannot be reached. *)
Definition offline : World :=
  {| now := 1735776000000%float;
     today := MkDate 2025 0 2;
     userCacheFile := Missing;
     currencyCacheFile := Missing;
     writable := fun _ => true;
     usageEndpoint := fun _ _ => Thrown networkError;
     teamsEndpoint := fun _ => Thrown networkError;
     teamEndpoint := fun _ _ => Thrown networkError;
     teamUsageEndpoint := fun _ _ => Thrown networkError;
     hardLimitEndpoint := fun _ => Thrown networkError;
     invoiceEndpoint := fun _ _ _ => Thrown networkError;
     ratesEndpoint := Thrown networkError;
     trace := [] |}.

(** An invoice of one line, and an invoice without lines. *)
Definition decemberInvoice : Invoice.Response :=
  Invoice.MkResponse
    (Some [ Invoice.MkLine
              "150 extra fast premium requests beyond 500/month * 4 cents per such request"
              (Invoice.CentsNumber 600) ])
    (Some false).

Definition emptyInvoice : Invoice.Response := Invoice.MkResponse (Some []) None.

(** No cache file, and a service that answers: an individual account, an
    invoice for December 2024 and none for the other months, rates for the
    euro only. *)
Definition online : World :=
  {| now := 1735776000000%float;
     today := MkDate 2025 0 2;
     userCacheFile := Missing;
     currencyCacheFile := Missing;
     writable := fun _ => true;
     usageEndpoint := fun _ _ =>
       Returned (MkCursorUsageResponse (Some (MkModelUsage 120 500))
                                       "2024-12-15T00:00:00.000Z");
     teamsEndpoint := fun _ => Returned (MkTeamInfo (Some []));
     teamEndpoint := fun _ _ => Thrown networkError;
     teamUsageEndpoint := fun _ _ => Thrown networkError;
     hardLimitEndpoint := fun _ => Returned (MkUsageLimitResponse (Some false) (Some 50%float));
     invoiceEndpoint := fun month year _ =>
       if ((month =? 12) && (year =? 2024))%Z then Returned decemberInvoice
       else Returned emptyInvoice;
     ratesEndpoint :=
       Returned (MkCurrencyRates "2025-01-02" (Some {[ "eur" := 0.5%float ]}));
     trace := [] |}.

(** A member of team 7 whose team details cannot be fetched. *)
Definition teamDetailsDown : World :=
  {| now := 1735776000000%float;
     today := MkDate 2025 0 2;
     userCacheFile := Missing;
     currencyCacheFile := Missing;
     writable := fun _ => true;
     usageEndpoint := fun _ _ =>
       Returned (MkCursorUsageResponse (Some (MkModelUsage 120 500))
                                       "2024-12-15T00:00:00.000Z");
     teamsEndpoint := fun _ => Returned (MkTeamInfo (Some [MkTeam 7]));
     teamEndpoint := fun _ _ => Thrown networkError;
     teamUsageEndpoint := fun _ _ => Thrown networkError;
     hardLimitEndpoint := fun _ => Thrown networkError;
     invoiceEndpoint := fun _ _ _ => Thrown networkError;
     ratesEndpoint := Thrown networkError;
     trace := [] |}.

(** A session token: the user id, the separator, the JWT. *)
Definition token : string := "user_01%3A%3Aheader.payload.signature".

(** A decoder for the evaluations: every token is of the same subject. *)
Definition decodeSub : option string -> option string :=
  fun jwtToken => match jwtToken with Some _ => Some "auth0|user_01" | None => None end.

(** The stand-in for the translation table in the evaluations below: a
    key is shown as itself. *)
Definition keys : string -> string := fun key => key.

End Worlds.

(** ** Mid-month payment lines and payment items *)

Module PaymentLines.
Import Js Api.

(** A mid-month payment line: the description has the marker and [cents]
    is a number. *)
Definition isCreditLine (item : Invoice.Line) : bool :=
  includes (Invoice.description item) midMonthMarker
  && match Invoice.cents item with Invoice.CentsNumber _ => true | _ => false end.

(** The absolute amount of a credit line, in dollars. *)
Definition creditAmount (item : Invoice.Line) : float :=
  match Invoice.cents item with
  | Invoice.CentsNumber c => (Num.abs c / 100)%float
  | _ => 0%float
  end.

(** A synthetic payment item, as updateStats recognises it. *)
Definition isPaymentItem (u : UsageItem) : bool :=
  includes (description u) midMonthMarker.

(** The running sums of the amounts, from [total] on. *)
Fixpoint runningTotals (total : float) (amounts : list float) : list float :=
  match amounts with
  | [] => []
  | a :: rest =>
      let total' := (total + a)%float in
      total' :: runningTotals total' rest
  end.

(** The payment item shown for a line at a running total. *)
Definition paymentItem (t : string -> string) (item : Invoice.Line) (total : float)
  : UsageItem :=
  {| calculation := t "api.midMonthPayment" +:+ ": $" +:+ Num.toFixed 2 total;
     totalDollars := "-$" +:+ Num.toFixed 2 total;
     description := Invoice.description item;
     modelNameForTooltip := None;
     isDiscounted := None |}.

(** The payment items of the credit lines, from the running total [total] on. *)
Fixpoint paymentItems (t : string -> string) (total : float)
    (credits : list Invoice.Line) : list UsageItem :=
  match credits with
  | [] => []
  | item :: rest =>
      let total' := (total + creditAmount item)%float in
      paymentItem t item total' :: paymentItems t total' rest
  end.

(** The invoice of the specification's example: two payment lines, of
    -500 and of -300 cents. *)
Definition twoCredits : Invoice.Response :=
  Invoice.MkResponse
    (Some [ Invoice.MkLine "Mid-month usage paid" (Invoice.CentsNumber (-500));
            Invoice.MkLine "Mid-month usage paid" (Invoice.CentsNumber (-300)) ])
    None.

(** The examples of the specification for ordinary lines: a token-based
    line, and a month whose request counts are 999 and 5. *)
Definition tokenBasedInvoice : Invoice.Response :=
  Invoice.MkResponse
    (Some [ Invoice.MkLine "42 token-based usage calls to gpt-5-extreme, totalling: $4.20"
              (Invoice.CentsNumber 420) ])
    None.

Definition paddedInvoice : Invoice.Response :=
  Invoice.MkResponse
    (Some [ Invoice.MkLine "999 tool calls * 5 cents per such call"
              (Invoice.CentsNumber 4995);
            Invoice.MkLine "5 discounted claude-3.7-sonnet-thinking-max requests * 9 cents per such request"
              (Invoice.CentsNumber 45);
            Invoice.MkLine "3 no cents here" Invoice.CentsAbsent;
            Invoice.MkLine "0 gpt-4 requests" (Invoice.CentsNumber 0) ])
    (Some true).

End PaymentLines.

(** ** The groups a match has captured *)

Module Captures.
Import Regex.

(** Group [i] is among the captures. *)
Definition captured (i : nat) (caps : list (nat * list ascii)) : Prop :=
  exists v, In (i, v) caps.

(** A matcher that, where it succeeds, has run its continuation on a state
    that kept the captures it was given. *)
Definition grows (once : mstate -> (mstate -> option mstate) -> option mstate) : Prop :=
  forall st k res,
    once st k = Some res ->
    exists st', k st' = Some res /\ forall i, captured i (caps st) -> captured i (caps st').

End Captures.

(** ** The label of the extra-fast strategy *)

Module Labels.
Import Js Regex Patterns Api.

(** The label of the extra-fast strategy: the phrase in parentheses, or
    the fast-premium category. *)
Definition extraFastLabel (t : string -> string) (desc : string) : option string :=
  match capture 1 (exec extraFast desc) with
  | Some name => Some name
  | None => Some (t "api.fastPremium")
  end.

(** A line in which both the extra-fast phrase and a known model match. *)
Definition bothMatch : string :=
  "10 extra fast premium requests (gpt-4-32k) beyond 500/month * 4 cents per such request".

(** The invoice with that line alone, for 40 cents. *)
Definition bothMatchInvoice : Invoice.Response :=
  Invoice.MkResponse (Some [Invoice.MkLine bothMatch (Invoice.CentsNumber 40)]) None.

End Labels.

(** ** Snapshots to evaluate the aggregation on *)

Module Snapshots.
Import Api.

(** A month without invoice items. *)
Definition emptyMonthData : MonthData :=
  {| items := []; hasUnpaidMidMonthInvoice := false; midMonthPayment := 0%float |}.

(** A snapshot with the given premium counters and no invoice items. *)
Definition quota (current limit : float) : CursorStats :=
  {| currentMonth := {| month := 2; year := 2025; usageBasedPricing := emptyMonthData |};
     lastMonth := {| month := 1; year := 2025; usageBasedPricing := emptyMonthData |};
     premiumRequests := {| current := current; limit := limit;
                           startOfMonth := "2025-02-01T00:00:00.000Z" |} |}.

(** A snapshot with the given items in its two months. *)
Definition months (currentItems lastItems : list UsageItem) : CursorStats :=
  {| currentMonth := {| month := 2; year := 2025;
                        usageBasedPricing := MkMonthData currentItems false 0%float |};
     lastMonth := {| month := 1; year := 2025;
                     usageBasedPricing := MkMonthData lastItems false 0%float |};
     premiumRequests := {| current := 10%float; limit := 500%float;
                           startOfMonth := "2025-02-01T00:00:00.000Z" |} |}.

(** A usage item. *)
Definition someItem : UsageItem :=
  {| calculation := "**5** req @ **$0.040&nbsp;&nbsp;**";
     totalDollars := "$0.20";
     description := "5 extra fast premium requests beyond 500/month * 4 cents per such request";
     modelNameForTooltip := Some "fast-premium";
     isDiscounted := Some false |}.

End Snapshots.

(** ** The values a degraded call returns *)

Module Expected.

(** The amount, in dollars. *)
Definition dollars (amount : float) : Currency.Converted :=
  {| Currency.value := amount; Currency.symbol := "$" |}.

(** Usage-based pricing taken as disabled: [{ isEnabled: false }]. *)
Definition disabled : Api.UsageStatus.t :=
  {| Api.UsageStatus.isEnabled := false; Api.UsageStatus.limit := None |}.

End Expected.

(** ** The test the unknown-model tracker applies to a term *)

Module Tracking.
Import Js UpdateStats.


End Tracking.

(** ** What a computation leaves of the world *)

Module Frames.
Import Types Eff.

(** The I/O done between [w] and a later world [w']. *)
Definition newEvents (w w' : World) : list Event :=
  drop (length (trace w)) (trace w').

(** The error of an outcome, if it is one. *)
Definition failed {A} (o : Outcome A) : option Error :=
  match o with Thrown e => Some e | Returned _ => None end.

(** The error the remote service answers a request with, if it fails. *)
Definition failure (w : World) (r : Request) : option Error :=
  match r with
  | GetUsage user token => failed (usageEndpoint w user token)
  | PostTeams token => failed (teamsEndpoint w token)
  | PostTeam teamId token => failed (teamEndpoint w teamId token)
  | PostTeamUsage teamId token => failed (teamUsageEndpoint w teamId token)
  | PostHardLimit token => failed (hardLimitEndpoint w token)
  | PostMonthlyInvoice month year token => failed (invoiceEndpoint w month year token)
  | GetCurrencyRates => failed (ratesEndpoint w)
  end.

(** [w'] is [w] after some I/O: the clock, the date and the remote
    service are the same, the trace is longer; only the cache files may
    differ. *)
Record extends (w w' : World) : Prop := MkExtends {
  ext_now : now w' = now w;
  ext_today : today w' = today w;
  ext_writable : writable w' = writable w;
  ext_usage : usageEndpoint w' = usageEndpoint w;
  ext_teams : teamsEndpoint w' = teamsEndpoint w;
  ext_team : teamEndpoint w' = teamEndpoint w;
  ext_teamUsage : teamUsageEndpoint w' = teamUsageEndpoint w;
  ext_hardLimit : hardLimitEndpoint w' = hardLimitEndpoint w;
  ext_invoice : invoiceEndpoint w' = invoiceEndpoint w;
  ext_rates : ratesEndpoint w' = ratesEndpoint w;
  ext_trace : exists l, trace w' = trace w ++ l;
}.

(** A computation that only does I/O. *)
Definition stable {A} (m : M A) : Prop := forall w, extends w (m w).2.

End Frames.

(** ** The billing periods in the words of the specification *)

Module Periods.
Import Types.

(** The fixed day of the month the usage-based period starts on. *)
Definition billingCutoffDay : Z := 3.

(** The active period in the words of the specification, as (month, year)
    with months from 1: before the cutoff day the previous calendar month,
    December of the year before when the current month is January; from
    the cutoff day on the current calendar month. *)
Definition activePeriod (d : Date) : Z * Z :=
  if (getDate d <? billingCutoffDay)%Z
  then (if (getMonth d =? 0)%Z then (12, getFullYear d - 1)%Z
        else (getMonth d, getFullYear d))
  else ((getMonth d + 1)%Z, getFullYear d).

(** The month before a period. *)
Definition precedingPeriod (p : Z * Z) : Z * Z :=
  if (p.1 =? 1)%Z then (12%Z, (p.2 - 1)%Z) else ((p.1 - 1)%Z, p.2).

End Periods.

(** ** The lines of an invoice and the items of a month *)

Module MonthItems.
Import Js Regex Api PaymentLines.

(** [cents] of the line is a number. *)
Definition hasNumberCents (item : Invoice.Line) : bool :=
  match Invoice.cents item with Invoice.CentsNumber _ => true | _ => false end.

(** The lines the padding widths are computed from: [cents] is a number
    and the line is no mid-month payment. *)
Definition countsForPadding (item : Invoice.Line) : bool :=
  hasNumberCents item && negb (includes (Invoice.description item) midMonthMarker).

(** An item of a month record as the tooltip reads it: a payment item
    has no model and no discount mark; any other item has a model label,
    and its discount mark says whether the description mentions a discount. *)
Definition wellFormedItem (u : UsageItem) : Prop :=
  if isPaymentItem u
  then modelNameForTooltip u = None /\ isDiscounted u = None
  else is_Some (modelNameForTooltip u)
       /\ isDiscounted u = Some (includes (toLowerCase (description u)) "discounted").

(** Group [i] is on the spine of the pattern: every match goes through it. *)
Fixpoint alwaysCaptures (i : nat) (r : regex) : bool :=
  match r with
  | Group j r' => Nat.eqb i j || alwaysCaptures i r'
  | Seq r1 r2 => alwaysCaptures i r1 || alwaysCaptures i r2
  | _ => false
  end.

End MonthItems.

(** ** The requests and the errors of a computation *)

Module Requests.
Import Types Eff Frames.

(** No request is made between [w] and [w']. *)
Definition noRequest (w w' : World) : Prop :=
  forall r, ~ In (Http r) (newEvents w w').

(** A computation that makes no request. *)
Definition silent {A} (m : M A) : Prop := forall w, noRequest w (m w).2.

(** A computation that stops at the first request that fails: the failed
    request is the last thing it does, and it throws the error of it. *)
Definition failFast {A} (m : M A) : Prop :=
  forall w r e,
    In (Http r) (newEvents w (m w).2) ->
    failure w r = Some e ->
    (m w).1 = Thrown e /\ exists l, newEvents w (m w).2 = l ++ [Http r].

(** [e] is the error of a request made between [w] and [w']. *)
Definition requestFailed (w w' : World) (e : Error) : Prop :=
  exists r, In (Http r) (newEvents w w') /\ failure w r = Some e.

(** A computation that throws the error of a request it made, or else an
    error in [P]. *)
Definition raises {A} (P : Error -> Prop) (m : M A) : Prop :=
  forall w e, (m w).1 = Thrown e -> requestFailed w (m w).2 e \/ P e.

End Requests.

(** ** Team data and the membership cache *)

Module TeamData.
Import Js Types Eff Team.

(** The messages of the two errors of [extractUserUsage]. *)
Definition memberNotFound : string := "User usage data not found in team usage response".
Definition gpt4NotFound : string := "GPT-4 usage data not found for user".

(** The messages of the errors a refresh throws without a failed request:
    the usage data it looks for is not in the answer. *)
Definition usageDataErrors : list string :=
  [ memberNotFound; gpt4NotFound;
    "Cannot read properties of undefined (reading 'numRequests')" ].

Definition usageDataMissing (e : Error) : Prop := In (message e) usageDataErrors.

(** The record of a cache file, if it holds one. *)
Definition stored {A} (f : File A) : option A :=
  match f with Stored a => Some a | _ => None end.

(** The subject of the JWT of a session token. *)
Definition subjectOf (decodeSub : option string -> option string) (token : string)
  : option string :=
  decodeSub (split token "%3A%3A" !! 1%nat).

(** A member of team 7, with user id 42, of whom the usage of the team
    says nothing: it lists member 41 only. *)
Definition teamWithoutMember : World :=
  {| now := 1735776000000%float;
     today := MkDate 2025 0 2;
     userCacheFile := Missing;
     currencyCacheFile := Missing;
     writable := fun _ => true;
     usageEndpoint := fun _ _ =>
       Returned (MkCursorUsageResponse (Some (MkModelUsage 120 500))
                                       "2024-12-15T00:00:00.000Z");
     teamsEndpoint := fun _ => Returned (MkTeamInfo (Some [MkTeam 7]));
     teamEndpoint := fun _ _ => Returned (MkTeamMemberInfo 42 [41; 42]%Z);
     teamUsageEndpoint := fun _ _ =>
       Returned (MkTeamUsageResponse
                   [MkMemberUsage 41 [MkModelTypeUsage "gpt-4" (Some 10%float) 500]]);
     hardLimitEndpoint := fun _ => Thrown Worlds.networkError;
     invoiceEndpoint := fun _ _ _ => Returned Worlds.emptyInvoice;
     ratesEndpoint := Thrown Worlds.networkError;
     trace := [] |}.


End TeamData.

(** ** The cached exchange rates *)

Module Rates.
Import Types Eff Currency.

(** The rates of a cache file written less than 24 hours before. *)
Definition freshRates (w : World) : option CurrencyRates :=
  match currencyCacheFile w with
  | Stored c =>
      if (now w - timestamp c <? CACHE_EXPIRY_MS)%float then Some (rates c) else None
  | _ => None
  end.


End Rates.

(** ** The terms of the unknown-model notification over a session *)

Module Terms.
Import Js Api UpdateStats.




(** What a session does to the module state of updateStats: a turn of
    the loop over the items, or the check at the end of an update. *)
Inductive Action : Type :=
| Track (item : UsageItem)
| Notify.

(** The state and the number of notifications shown so far. *)
Definition act (st : Tracker * nat) (a : Action) : Tracker * nat :=
  let '(tr, shown) := st in
  match a with
  | Track item =>
      (MkTracker (unknownModelNotificationShown tr)
                 (trackItem (detectedUnknownModels tr) item), shown)
  | Notify =>
      let '(now, tr') := notifyUnknownModels tr in
      (tr', if now : bool then S shown else shown)
  end.

End Terms.

(** ** The characters of a session token *)

Module Tokens.
Import Js.

Definition percent : ascii := "%"%char.

(** No percent sign: the separator of the session token cannot start in
    the string. *)
Definition noPercent (s : string) : Prop := ~ In percent (chars s).

End Tokens.

(** ** The calls on the log history *)

Module LogCalls.
Import Logger.

(** A call of [log] or of [clearLogHistory]. *)
Inductive LogCall : Type :=
| CallLog (loggingEnabled : bool) (timestamp message : string) (data : LogData)
          (error : bool)
| CallClear.

Definition call (logHistory : list string) (c : LogCall) : list string :=
  match c with
  | CallLog loggingEnabled timestamp message data error =>
      log loggingEnabled timestamp logHistory message data error
  | CallClear => clearLogHistory logHistory
  end.

End LogCalls.

(** * Properties *)

(** ** Mid-month payments in the month record *)

Module MidMonth.
Import Js Api PaymentLines.

Section Facts.
Variable t : string -> string.

Lemma processMidMonthPayment_credit item total :
  isCreditLine item = true ->
  processMidMonthPayment t item total
  = Some ((total + creditAmount item)%float,
          paymentItem t item (total + creditAmount item)%float).
Proof.
  unfold isCreditLine, processMidMonthPayment, creditAmount, paymentItem.
  intros [Hmark Hc]%andb_prop. rewrite Hmark. simpl.
  destruct (Invoice.cents item); try discriminate. reflexivity.
Qed.

Lemma processMidMonthPayment_other item total :
  isCreditLine item = false ->
  processMidMonthPayment t item total = None.
Proof.
  unfold isCreditLine, processMidMonthPayment.
  destruct (includes _ _); simpl; [|reflexivity].
  destruct (Invoice.cents item); intros; try reflexivity. discriminate.
Qed.

Lemma processItem_credit pw cw us total item :
  isCreditLine item = true ->
  processItem t pw cw (us, total) item
  = (us ++ [paymentItem t item (total + creditAmount item)%float],
     (total + creditAmount item)%float).
Proof.
  intros H. unfold processItem.
  rewrite (processMidMonthPayment_credit _ _ H).
  unfold isCreditLine in H. apply andb_prop in H as [_ H].
  unfold Invoice.hasOwnCents. destruct (Invoice.cents item); try discriminate.
  reflexivity.
Qed.

(** An ordinary line adds at most one item, which is not a payment item,
    and leaves the running total alone. *)
Lemma processItem_other pw cw us total item :
  isCreditLine item = false ->
  exists extra,
    processItem t pw cw (us, total) item = (us ++ extra, total)
    /\ List.filter isPaymentItem extra = [].
Proof.
  intros H. unfold processItem.
  rewrite (processMidMonthPayment_other _ _ H).
  destruct (negb (Invoice.hasOwnCents item)).
  { exists []. by rewrite app_nil_r. }
  unfold isCreditLine in H.
  destruct (Invoice.cents item) as [| |c] eqn:Hc;
    try (exists []; by rewrite app_nil_r).
  rewrite andb_true_r in H.
  destruct (parseDescription t (Invoice.description item)) as [p|];
    [|exists []; by rewrite app_nil_r].
  destruct (requestCount p =? 0)%float; [exists []; by rewrite app_nil_r|].
  eexists [_]. split; [reflexivity|].
  simpl. unfold isPaymentItem. simpl. by rewrite H.
Qed.

Lemma fold_processItem pw cw items us total :
  let res := fold_left (processItem t pw cw) items (us, total) in
  List.filter isPaymentItem res.1
  = List.filter isPaymentItem us
      ++ paymentItems t total (List.filter isCreditLine items)
  /\ res.2 = fold_left PrimFloat.add
               (map creditAmount (List.filter isCreditLine items)) total.
Proof.
  revert us total. induction items as [|item items IH]; intros us total.
  { cbn. by rewrite app_nil_r. }
  cbn [fold_left List.filter].
  destruct (isCreditLine item) eqn:Hc.
  - rewrite (processItem_credit _ _ _ _ _ Hc).
    destruct (IH (us ++ [paymentItem t item (total + creditAmount item)%float])
                 (total + creditAmount item)%float) as [IH1 IH2].
    cbn zeta in IH1, IH2. cbn zeta. rewrite IH1, IH2. split; [|reflexivity].
    rewrite List.filter_app. cbn [List.filter paymentItems].
    unfold isPaymentItem at 2. cbn [description paymentItem].
    unfold isCreditLine in Hc. apply andb_prop in Hc as [-> _].
    by rewrite <- app_assoc.
  - destruct (processItem_other pw cw us total item Hc) as (extra & -> & Hex).
    destruct (IH (us ++ extra) total) as [IH1 IH2].
    cbn zeta in IH1, IH2. cbn zeta. rewrite IH1, IH2. split; [|reflexivity].
    by rewrite List.filter_app, Hex, app_nil_r.
Qed.

Lemma buildMonthData_payments inv :
  let credits := List.filter isCreditLine (default [] (Invoice.items inv)) in
  List.filter isPaymentItem (items (buildMonthData t inv)) = paymentItems t 0 credits
  /\ midMonthPayment (buildMonthData t inv)
     = fold_left PrimFloat.add (map creditAmount credits) 0%float.
Proof.
  unfold buildMonthData.
  destruct (default [] (Invoice.items inv)) as [|item items] eqn:E.
  { simpl. split; reflexivity. }
  destruct (calculatePaddingWidths (item :: items)) as [pw cw].
  pose proof (fold_processItem pw cw (item :: items) [] 0%float) as H.
  destruct (fold_left (processItem t pw cw) (item :: items) ([], 0%float)) as [us total].
  simpl in H. simpl. exact H.
Qed.

Lemma paymentItems_length total credits :
  length (paymentItems t total credits) = length credits.
Proof. revert total. induction credits; intros; simpl; [done|by rewrite IHcredits]. Qed.

Lemma paymentItems_totalDollars total credits :
  map totalDollars (paymentItems t total credits)
  = map (fun s => "-$" +:+ Num.toFixed 2 s)
        (runningTotals total (map creditAmount credits)).
Proof. revert total. induction credits; intros; simpl; [done|by rewrite IHcredits]. Qed.

End Facts.

(** The ordinary lines of the specification's examples. *)
Example tokenBased_line :
  items (buildMonthData Worlds.keys tokenBasedInvoice)
  = [ {| calculation := "**42** api.requestUnit @ **$0.100~**";
         totalDollars := "$4.20";
         description := "42 token-based usage calls to gpt-5-extreme, totalling: $4.20";
         modelNameForTooltip := Some "gpt-5-extreme";
         isDiscounted := Some false |} ].
Proof. vm_compute. reflexivity. Qed.

Example padded_lines :
  map (fun u => (calculation u, totalDollars u, modelNameForTooltip u, isDiscounted u))
      (items (buildMonthData Worlds.keys paddedInvoice))
  = [ ("**999** api.requestUnit @ **$0.050&nbsp;&nbsp;**", "$49.95",
       Some "api.toolCalls", Some false);
      ("**005** api.requestUnit @ **$0.090&nbsp;&nbsp;**", "$0.45",
       Some "claude-3.7-sonnet-thinking-max", Some true) ]
  /\ hasUnpaidMidMonthInvoice (buildMonthData Worlds.keys paddedInvoice) = true.
Proof. vm_compute. split; reflexivity. Qed.

(** C1, as stated, fails: two payment lines leave two payment items in
    the month record, the first showing $5.00 and the second $8.00; the
    total of the month is 8. *)
Lemma two_credit_lines_two_payment_items :
  length (List.filter isPaymentItem (items (buildMonthData Worlds.keys twoCredits))) = 2%nat
  /\ map totalDollars (items (buildMonthData Worlds.keys twoCredits)) = ["-$5.00"; "-$8.00"]
  /\ midMonthPayment (buildMonthData Worlds.keys twoCredits) = 8%float.
Proof. vm_compute. repeat split. Qed.

(** C1, amended: the month record holds one payment item per mid-month
    payment line, in the order of the lines (the items [paymentItems]
    lists); the item of the k-th line shows the running sum of the
    absolute amounts of the first k payment lines; and [midMonthPayment]
    is the sum over all of them. *)
Theorem payment_item_per_credit_line (t : string -> string) (inv : Invoice.Response) :
  let credits := List.filter isCreditLine (default [] (Invoice.items inv)) in
  let payments := List.filter isPaymentItem (items (buildMonthData t inv)) in
  payments = paymentItems t 0 credits
  /\ length payments = length credits
  /\ map totalDollars payments
     = map (fun total => "-$" +:+ Num.toFixed 2 total)
           (runningTotals 0 (map creditAmount credits))
  /\ midMonthPayment (buildMonthData t inv)
     = fold_left PrimFloat.add (map creditAmount credits) 0%float.
Proof.
  intros credits payments.
  destruct (buildMonthData_payments t inv) as [Hitems Htotal].
  fold credits in Hitems, Htotal. fold payments in Hitems.
  rewrite Hitems. split; [reflexivity|]. split; [apply paymentItems_length|].
  split; [apply paymentItems_totalDollars|exact Htotal].
Qed.

End MidMonth.

(** ** Captures of a successful match *)

Module RegexFacts.
Import Js Regex Patterns Captures.

Lemma starLoop_grows greedy once k :
  grows once ->
  forall fuel st res,
    starLoop greedy once k fuel st = Some res ->
    exists st', k st' = Some res /\ forall i, captured i (caps st) -> captured i (caps st').
Proof.
  intros Honce. induction fuel as [|fuel IH]; intros st res H; cbn [starLoop] in H.
  { eauto. }
  assert (Hagain : forall res',
    once st (fun st' =>
      if (length (rest st') <? length (rest st))%nat
      then starLoop greedy once k fuel st' else None) = Some res' ->
    exists st', k st' = Some res' /\
      forall i, captured i (caps st) -> captured i (caps st')).
  { intros res' Hr. apply Honce in Hr as (st1 & Hr & Hc1).
    destruct (length (rest st1) <? length (rest st))%nat; [|discriminate].
    apply IH in Hr as (st2 & Hr & Hc2). eauto. }
  cbn zeta in H. destruct greedy.
  - match type of H with
    | match ?x with _ => _ end = _ => destruct x eqn:E
    end.
    + injection H as ->. by apply Hagain.
    + eauto.
  - destruct (k st) eqn:E.
    + injection H as ->. eauto.
    + by apply Hagain.
Qed.

(** A successful match went on from a state that kept every capture. *)
Lemma rmatch_grows r : grows (rmatch r).
Proof.
  induction r as [|p|r1 IH1 r2 IH2|r1 IH1 r2 IH2|greedy r1 IH1|j r1 IH1| | |];
    intros st k res H; cbn [rmatch] in H.
  - eauto.
  - destruct (rest st) as [|c tl]; [discriminate|].
    destruct (p c); [|discriminate]. eauto.
  - apply IH1 in H as (st1 & H & Hc1). apply IH2 in H as (st2 & H & Hc2). eauto.
  - destruct (rmatch r1 st k) eqn:E.
    + injection H as ->. eauto.
    + eauto.
  - by eapply starLoop_grows.
  - apply IH1 in H as (st1 & H & Hc1). eexists. split; [exact H|].
    cbn. intros i Hi. destruct (Hc1 i Hi) as [v Hv]. exists v. by right.
  - destruct (prev st); [discriminate|]. eauto.
  - destruct (rest st); [|discriminate]. eauto.
  - destruct (xorb _ _); [|discriminate]. eauto.
Qed.

Lemma searchFrom_matched r : forall s pre p m,
  searchFrom r pre p s = Some m ->
  exists st res, rmatch r st Some = Some res /\ groups m = caps res.
Proof.
  induction s as [|c s IH]; intros pre p m H; cbn [searchFrom] in H.
  - destruct (rmatch r _ Some) eqn:E; [|discriminate]. injection H as <-. eauto.
  - destruct (rmatch r _ Some) eqn:E.
    + injection H as <-. eauto.
    + eauto.
Qed.

Lemma group_captured i m : captured i (groups m) -> is_Some (group i m).
Proof.
  intros [v Hin]. unfold group.
  destruct (find _ (groups m)) eqn:E; [done|].
  eapply find_none in E; [|exact Hin]. cbn in E. by rewrite Nat.eqb_refl in E.
Qed.

(** A group that is not under an alternative or a quantifier is captured
    by every match. *)
Lemma seq_group_captured a b i r c st res :
  rmatch (Seq a (Seq b (Seq (Group i r) c))) st Some = Some res ->
  captured i (caps res).
Proof.
  cbn [rmatch]. intros H.
  apply rmatch_grows in H as (st1 & H & _).
  apply rmatch_grows in H as (st2 & H & _).
  apply rmatch_grows in H as (st3 & H & _).
  apply rmatch_grows in H as (st4 & [= <-] & Hc).
  apply Hc. cbn. eexists. by left.
Qed.

(** Every match of [genericModelPattern] has its group 1, the model. *)
Lemma known_model_group desc m :
  exec genericModelPattern desc = Some m -> is_Some (group 1 m).
Proof.
  intros H. apply searchFrom_matched in H as (st & res & H & Hg).
  apply group_captured. rewrite Hg. clear Hg m.
  unfold genericModelPattern in H. cbn [seqs] in H.
  by apply seq_group_captured in H.
Qed.

End RegexFacts.

(** ** The order of the model matchers *)

Module ModelLabel.
Import Js Regex Patterns Api Labels.

(** C2, as stated, fails: on a line with the extra-fast phrase
    "(gpt-4-32k)" and the known model "gpt-4", the label is the known
    model, not the phrase in parentheses. *)
Lemma known_model_wins_over_extra_fast :
  includes bothMatch "tool calls" = false
  /\ includes bothMatch "extra fast premium request" = true
  /\ extraFastLabel Worlds.keys bothMatch = Some "gpt-4-32k"
  /\ capture 1 (exec genericModelPattern bothMatch) = Some "gpt-4"
  /\ (resolveModel Worlds.keys bothMatch).1 = Some "gpt-4"
  /\ map modelNameForTooltip (items (buildMonthData Worlds.keys bothMatchInvoice))
     = [Some "gpt-4"].
Proof. vm_compute. repeat split. Qed.

(** C2, amended: the label is resolved by the tool-calls matcher first,
    then by the known-model patterns, and only then by the extra-fast
    phrase (the phrase in parentheses, or the fast-premium category);
    without any of them it is the unknown-model label. *)
Theorem resolveModel_priority (t : string -> string) (desc : string) :
  resolveModel t desc =
    if includes desc "tool calls" then (Some (t "api.toolCalls"), true)
    else match exec genericModelPattern desc with
         | Some m => (group 1 m, false)
         | None =>
             if includes desc "extra fast premium request"
             then (extraFastLabel t desc, false)
             else (Some (t "statusBar.unknownModel"), false)
         end.
Proof.
  unfold resolveModel, modelParsingStrategies, extraFastLabel.
  cbn [find condition parser].
  destruct (includes desc "tool calls"); [reflexivity|].
  destruct (exec genericModelPattern desc); cbn [matched]; [reflexivity|].
  destruct (includes desc "extra fast premium request"); reflexivity.
Qed.

(** In particular, where a known model matches a line without tool calls,
    the label is that model, whatever the extra-fast phrase. *)
Lemma known_model_before_extra_fast (t : string -> string) desc m :
  includes desc "tool calls" = false ->
  exec genericModelPattern desc = Some m ->
  (resolveModel t desc).1 = group 1 m.
Proof.
  intros H1 H2. unfold resolveModel, modelParsingStrategies.
  cbn [find condition parser]. by rewrite H1, H2.
Qed.

(** The label of such a line is defined: it is the model the pattern
    captured. *)
Lemma known_model_label_defined (t : string -> string) desc m :
  includes desc "tool calls" = false ->
  exec genericModelPattern desc = Some m ->
  exists name, group 1 m = Some name /\ resolveModel t desc = (Some name, false).
Proof.
  intros H1 H2. destruct (RegexFacts.known_model_group desc m H2) as [name Hname].
  exists name. split; [exact Hname|].
  unfold resolveModel, modelParsingStrategies.
  cbn [find condition parser]. by rewrite H1, H2, Hname.
Qed.

End ModelLabel.

(** ** The premium percentage and the month shown *)

Module Snapshot.
Import Api UpdateStats Snapshots.

(** C3: the code divides by the limit without a guard. With a limit of
    zero the percentage is [NaN] when nothing was used and infinite
    otherwise. *)
Lemma premiumPercent_zero_limit_not_finite :
  PrimFloat.is_nan (premiumPercent (quota 0 0)) = true
  /\ PrimFloat.is_infinity (premiumPercent (quota 5 0)) = true.
Proof. vm_compute. split; reflexivity. Qed.

Lemma is_nan_SF x : Prim2SF x = S754_nan -> PrimFloat.is_nan x = true.
Proof.
  intros H. unfold PrimFloat.is_nan. by rewrite FloatAxioms.eqb_spec, H.
Qed.

Lemma is_infinity_SF x s :
  Prim2SF x = S754_infinity s -> PrimFloat.is_infinity x = true.
Proof.
  intros H. unfold PrimFloat.is_infinity.
  by rewrite FloatAxioms.eqb_spec, FloatAxioms.abs_spec, H.
Qed.

Lemma round_not_finite x :
  (Prim2SF x = S754_nan \/ exists s, Prim2SF x = S754_infinity s) -> Num.round x = x.
Proof. unfold Num.round. intros [->|[s ->]]; reflexivity. Qed.

(** Whatever was used, with a limit of zero the percentage is not a
    finite number. *)
Lemma premiumPercent_zero_limit (stats : CursorStats) :
  limit (premiumRequests stats) = 0%float ->
  PrimFloat.is_nan (premiumPercent stats)
  || PrimFloat.is_infinity (premiumPercent stats) = true.
Proof.
  intros Hlimit. unfold premiumPercent. rewrite Hlimit.
  set (c := current (premiumRequests stats)).
  assert (H : Prim2SF (c / 0 * 100)%float = S754_nan
              \/ exists s, Prim2SF (c / 0 * 100)%float = S754_infinity s).
  { rewrite FloatAxioms.mul_spec, FloatAxioms.div_spec.
    change (Prim2SF 0) with (S754_zero false).
    destruct (Prim2SF c) as [s|s| |s m e]; cbn; eauto. }
  rewrite (round_not_finite _ H).
  destruct H as [H|[s H]].
  - by rewrite (is_nan_SF _ H).
  - by rewrite (is_infinity_SF _ _ H), orb_true_r.
Qed.

(** With a positive limit the percentage is the rounded ratio. *)
Example premiumPercent_third : premiumPercent (quota 150 500) = 30%float.
Proof. vm_compute. reflexivity. Qed.

(** C5: the month shown is the last one when the current one has no item
    and the last one has some, and the current one as soon as it has an
    item. *)
Theorem activeMonthData_fallback (stats : CursorStats) :
  (items (usageBasedPricing (currentMonth stats)) = [] ->
   (0 < length (items (usageBasedPricing (lastMonth stats))))%nat ->
   activeMonthData stats = lastMonth stats)
  /\ ((1 <= length (items (usageBasedPricing (currentMonth stats))))%nat ->
      activeMonthData stats = currentMonth stats).
Proof.
  unfold activeMonthData. split.
  - intros -> _. reflexivity.
  - intros H. destruct (items (usageBasedPricing (currentMonth stats))).
    + simpl in H. lia.
    + reflexivity.
Qed.

(** The two cases on snapshots with items in one month only. *)
Lemma activeMonthData_fallback_witness :
  activeMonthData (months [] [someItem; someItem]) = lastMonth (months [] [someItem; someItem])
  /\ activeMonthData (months [someItem] []) = currentMonth (months [someItem] []).
Proof.
  split.
  - apply (activeMonthData_fallback (months [] [someItem; someItem]));
      [reflexivity | simpl; lia].
  - apply (activeMonthData_fallback (months [someItem] [])). simpl. lia.
Defined.

End Snapshot.

(** ** Currency conversion degrades to dollars *)

Module Conversion.
Import Js Types Eff Currency Expected.

(** C7: a conversion to USD returns the amount with the dollar sign and
    leaves the world as it was: no request, no access to the cache file. *)
Theorem convertAmount_usd (amount : float) (w : World) :
  convertAmount amount "USD" w = (Returned (dollars amount), w).
Proof. reflexivity. Qed.



(** When the feed is unreachable and no fresh cache is at hand, fetching
    the rates fails. *)
Lemma fetchExchangeRates_unreachable w e :
  currencyCacheFile w = Missing ->
  ratesEndpoint w = Thrown e ->
  exists e', (fetchExchangeRates w).1 = Thrown e'.
Proof.
  intros Hfile Hnet. unfold fetchExchangeRates, tryCatch, bind, getCachedRates,
    tryCatch, bind, existsCurrencyCache, request.
  rewrite Hfile. cbn. rewrite Hnet. by eexists.
Qed.


(** With a rate at hand the amount is converted. *)
Example convertAmount_eur :
  (convertAmount 12.5%float "EUR" Worlds.online).1
  = Returned {| value := 6.25%float; symbol := "€" |}.
Proof. vm_compute. reflexivity. Qed.

End Conversion.

(** ** The usage-based status never throws *)

Module LimitStatus.
Import Js Types Eff Api Expected.

(** C10: [checkUsageBasedStatus] returns for every token; when the call
    to the limit endpoint fails, what it returns is [{ isEnabled: false }]
    without a limit. *)
Theorem checkUsageBasedStatus_never_throws (token : string) (w : World) :
  exists st,
    (checkUsageBasedStatus token w).1 = Returned st
    /\ (forall e, hardLimitEndpoint w token = Thrown e -> st = disabled).
Proof.
  unfold checkUsageBasedStatus, getCurrentUsageLimit, tryCatch, bind, request, throw, ret.
  destruct (hardLimitEndpoint w token) as [response|e0].
  - eexists. split; [reflexivity|]. intros e He. discriminate.
  - exists disabled. split; [reflexivity|]. reflexivity.
Qed.

(** The status when the service cannot be reached. *)
Lemma checkUsageBasedStatus_never_throws_witness :
  (checkUsageBasedStatus Worlds.token Worlds.offline).1 = Returned disabled.
Proof.
  destruct (checkUsageBasedStatus_never_throws Worlds.token Worlds.offline)
    as (st & Hret & Hfail).
  rewrite Hret. f_equal. apply (Hfail Worlds.networkError). reflexivity.
Defined.

(** When the endpoint answers, its answer is read. *)
Example checkUsageBasedStatus_online :
  (checkUsageBasedStatus Worlds.token Worlds.online).1
  = Returned {| UsageStatus.isEnabled := true; UsageStatus.limit := Some 50%float |}.
Proof. vm_compute. reflexivity. Qed.

End LimitStatus.

(** ** Unknown models are recorded once *)

Module UnknownModels.
Import Js UpdateStats Tracking.


Lemma prefixb_refl l : prefixb l l = true.
Proof. induction l as [|c l IH]; [done|]. simpl. by rewrite Ascii.eqb_refl. Qed.



Lemma length_chars s : length (chars s) = String.length s.
Proof. induction s as [|c s IH]; simpl; [done|by rewrite IH]. Qed.











End UnknownModels.

(** ** What a computation leaves of the world *)

Module Io.
Import Types Eff Frames.

Lemma newEvents_app w w' l : trace w' = trace w ++ l -> newEvents w w' = l.
Proof. intros H. unfold newEvents. rewrite H. apply drop_app_length. Qed.

Lemma extends_refl w : extends w w.
Proof. split; try reflexivity. exists []. by rewrite app_nil_r. Qed.

Lemma extends_trans w1 w2 w3 : extends w1 w2 -> extends w2 w3 -> extends w1 w3.
Proof.
  intros [] []. split; try congruence.
  destruct ext_trace0 as [l1 H1], ext_trace1 as [l2 H2].
  exists (l1 ++ l2). by rewrite H2, H1, app_assoc.
Qed.

Lemma extends_record e w : extends w (record e w).
Proof. split; try reflexivity. by exists [e]. Qed.

Lemma extends_setUserCacheFile c w : extends w (setUserCacheFile c w).
Proof. split; try reflexivity. exists []. cbn. by rewrite app_nil_r. Qed.

Lemma extends_setCurrencyCacheFile c w : extends w (setCurrencyCacheFile c w).
Proof. split; try reflexivity. exists []. cbn. by rewrite app_nil_r. Qed.

Lemma stable_ret {A} (a : A) : stable (ret a).
Proof. intros w. apply extends_refl. Qed.

Lemma stable_throw {A} e : stable (throw (A := A) e).
Proof. intros w. apply extends_refl. Qed.

Lemma stable_lift {A} (o : Outcome A) : stable (lift o).
Proof. intros w. apply extends_refl. Qed.

Lemma stable_bind {A B} (m : M A) (f : A -> M B) :
  stable m -> (forall a, stable (f a)) -> stable (bind m f).
Proof.
  intros Hm Hf w. unfold bind. specialize (Hm w).
  destruct (m w) as [[a|e] w1]; [|exact Hm].
  eapply extends_trans; [exact Hm|apply Hf].
Qed.

Lemma stable_tryCatch {A} (m : M A) (h : Error -> M A) :
  stable m -> (forall e, stable (h e)) -> stable (tryCatch m h).
Proof.
  intros Hm Hh w. unfold tryCatch. specialize (Hm w).
  destruct (m w) as [[a|e] w1]; [exact Hm|].
  eapply extends_trans; [exact Hm|apply Hh].
Qed.

Lemma stable_request {A} r (answer : World -> Outcome A) : stable (request r answer).
Proof. intros w. apply extends_record. Qed.

Lemma stable_dateNow : stable dateNow.
Proof. intros w. apply extends_refl. Qed.

Lemma stable_newDate : stable newDate.
Proof. intros w. apply extends_refl. Qed.

Lemma stable_typeError {A} what : stable (typeError (A := A) what).
Proof. intros w. apply extends_refl. Qed.

Lemma stable_existsUserCache : stable existsUserCache.
Proof. intros w. apply extends_record. Qed.

Lemma stable_readUserCache : stable readUserCache.
Proof. intros w. apply extends_record. Qed.

Lemma stable_writeUserCache c : stable (writeUserCache c).
Proof.
  intros w. unfold writeUserCache. destruct (writable w UserCacheFile); cbn [snd].
  - eapply extends_trans; [apply extends_setUserCacheFile|apply extends_record].
  - apply extends_refl.
Qed.

Lemma stable_existsCurrencyCache : stable existsCurrencyCache.
Proof. intros w. apply extends_record. Qed.

Lemma stable_readCurrencyCache : stable readCurrencyCache.
Proof. intros w. apply extends_record. Qed.

Lemma stable_writeCurrencyCache c : stable (writeCurrencyCache c).
Proof.
  intros w. unfold writeCurrencyCache. destruct (writable w CurrencyCacheFile); cbn [snd].
  - eapply extends_trans; [apply extends_setCurrencyCacheFile|apply extends_record].
  - apply extends_refl.
Qed.

Create HintDb stable discriminated.
#[export] Hint Resolve stable_ret stable_throw stable_lift stable_request
  stable_dateNow stable_newDate stable_typeError
  stable_existsUserCache stable_readUserCache stable_writeUserCache
  stable_existsCurrencyCache stable_readCurrencyCache stable_writeCurrencyCache
  : stable.

(** Stability of a computation built from the primitives with [bind],
    [tryCatch] and case distinctions. *)
Ltac stability :=
  repeat first
    [ progress intros
    | solve [auto with stable]
    | apply stable_bind
    | apply stable_tryCatch
    | match goal with
      | |- stable (match ?x with _ => _ end) => destruct x
      | |- stable (if ?b then _ else _) => destruct b
      | |- stable (let '(_, _) := ?x in _) => destruct x
      end ].

End Io.

(** ** A failed membership check persists nothing *)

Module Membership.
Import Js Types Eff Team Frames Io.

Ltac events :=
  erewrite newEvents_app by (cbn; rewrite <- ?app_assoc; reflexivity).

(** The end of a path through [checkTeamMembership]: the requests made on
    it, the answer each got, and what the path returns and leaves. *)
Ltac leaf :=
  cbn; events; cbn;
  let Hin := fresh "Hin" in
  let Hfail := fresh "Hfail" in
  intros Hin Hfail;
  repeat match goal with
         | H : _ \/ _ |- _ => destruct H
         | H : False |- _ => destruct H
         | H : Http _ = Http _ |- _ => injection H as <-
         | H : _ = Http _ |- _ => discriminate H
         end;
  cbn in Hfail;
  repeat match goal with
         | H : ?x = _, H' : context [?x] |- _ => rewrite H in H'
         end;
  cbn in Hfail; try discriminate Hfail;
  try (injection Hfail as <-; repeat split; try done; intuition discriminate).

(** The path taken on a cache miss. *)
Ltac miss_path w user token :=
  let usage := fresh "usage" in
  let info := fresh "info" in
  destruct (usageEndpoint w user token) as [usage|?] eqn:?; [|leaf];
  destruct (teamsEndpoint w token) as [info|?] eqn:?; [|leaf];
  destruct (id <$> teams info ≫= head) as [?tid|] eqn:?; cbn;
  [ destruct (_ && _) eqn:?; cbn;
    [ match goal with
      | |- context [teamEndpoint w ?tid token] =>
          destruct (teamEndpoint w tid token) eqn:?; cbn; [|leaf]
      end;
      destruct (writable w UserCacheFile); leaf
    | destruct (writable w UserCacheFile); leaf ]
  | destruct (writable w UserCacheFile); leaf ].

(** C8: if a request made by an invocation of [checkTeamMembership] fails,
    the invocation throws the error of that request, the cache file is
    what it was, and the invocation has written no cache file. *)
Theorem checkTeamMembership_failure_persists_nothing
    (decodeSub : option string -> option string) (token : string) (w : World)
    (r : Request) (e : Error) :
  let res := checkTeamMembership decodeSub token w in
  In (Http r) (newEvents w res.2) ->
  failure w r = Some e ->
  res.1 = Thrown e
  /\ userCacheFile res.2 = userCacheFile w
  /\ ~ In (FileWrite UserCacheFile) (newEvents w res.2).
Proof.
  unfold checkTeamMembership, loadUserCache, saveUserCache, tryCatch, bind, ret, throw,
    existsUserCache, readUserCache, writeUserCache, request, dateNow.
  cbn zeta.
  set (user := default "" (split token "%3A%3A" !! 0%nat)).
  set (jwtSub := decodeSub _).
  cbn. destruct (userCacheFile w) as [| |c] eqn:Hfile; cbn; rewrite ?Hfile; cbn.
  - miss_path w user token.
  - miss_path w user token.
  - destruct (bool_decide (cacheJwtSub c = jwtSub) && truthy (cacheStartOfMonth c)); cbn.
    + leaf.
    + miss_path w user token.
Qed.

(** A team member whose team details cannot be fetched: the third
    request fails. *)
Lemma checkTeamMembership_failure_persists_nothing_witness :
  let res := checkTeamMembership Worlds.decodeSub Worlds.token Worlds.teamDetailsDown in
  res.1 = Thrown Worlds.networkError
  /\ userCacheFile res.2 = userCacheFile Worlds.teamDetailsDown
  /\ ~ In (FileWrite UserCacheFile) (newEvents Worlds.teamDetailsDown res.2).
Proof.
  apply (checkTeamMembership_failure_persists_nothing
           Worlds.decodeSub Worlds.token Worlds.teamDetailsDown
           (PostTeam 7 Worlds.token) Worlds.networkError).
  - vm_compute. tauto.
  - reflexivity.
Defined.

(** When every request is answered, the record is written. *)
Example checkTeamMembership_online :
  let res := checkTeamMembership Worlds.decodeSub Worlds.token Worlds.online in
  res.1 = Returned {| isTeamMember := false; teamId := None; userId := None;
                      startOfMonth := "2024-12-15T00:00:00.000Z" |}
  /\ userCacheFile res.2
     = Stored {| cacheUserId := 0; cacheJwtSub := Some "auth0|user_01";
                 cacheIsTeamMember := false; cacheTeamId := None;
                 lastChecked := 1735776000000%float;
                 cacheStartOfMonth := "2024-12-15T00:00:00.000Z" |}
  /\ newEvents Worlds.online res.2
     = [ FileExists UserCacheFile; Http (GetUsage "user_01" Worlds.token);
         Http (PostTeams Worlds.token); FileWrite UserCacheFile ].
Proof. vm_compute. repeat split. Qed.

Lemma stable_checkTeamMembership decodeSub token :
  stable (checkTeamMembership decodeSub token).
Proof.
  unfold checkTeamMembership, loadUserCache, saveUserCache. stability.
Qed.

Lemma stable_getTeamUsage token teamId : stable (getTeamUsage token teamId).
Proof. unfold getTeamUsage. stability. Qed.

End Membership.

(** ** The billing period and the two months of a refresh *)

Module BillingPeriod.
Import Js Types Eff Api Frames Io Periods.

Lemma usageBasedPeriods_spec d :
  (0 <= getMonth d <= 11)%Z ->
  usageBasedPeriods d = (activePeriod d, precedingPeriod (activePeriod d)).
Proof.
  intros Hm. unfold usageBasedPeriods, activePeriod, precedingPeriod,
    usageBasedBillingDay, billingCutoffDay.
  destruct (getDate d <? 3)%Z.
  - destruct (Z.eqb_spec (getMonth d + 1) 1), (Z.eqb_spec (getMonth d) 0); try lia.
    + reflexivity.
    + cbn [fst snd]. destruct (Z.eqb_spec (getMonth d + 1 - 1) 12); [lia|].
      replace (getMonth d + 1 - 1)%Z with (getMonth d) by lia.
      by destruct (getMonth d =? 1)%Z.
  - cbn [fst snd]. by destruct (getMonth d + 1 =? 1)%Z.
Qed.

(** The year of the active period is the year before exactly when the
    date is before the cutoff day in January. *)
Lemma activePeriod_year d :
  (activePeriod d).2
  = if (getDate d <? billingCutoffDay)%Z && (getMonth d =? 0)%Z
    then (getFullYear d - 1)%Z else getFullYear d.
Proof.
  unfold activePeriod.
  by destruct (getDate d <? billingCutoffDay)%Z, (getMonth d =? 0)%Z.
Qed.

(** Both periods are months of the calendar. *)
Lemma periods_in_calendar d :
  (0 <= getMonth d <= 11)%Z ->
  (1 <= (activePeriod d).1 <= 12)%Z
  /\ (1 <= (precedingPeriod (activePeriod d)).1 <= 12)%Z.
Proof.
  intros Hm. unfold activePeriod, precedingPeriod.
  destruct (getDate d <? billingCutoffDay)%Z; [destruct (Z.eqb_spec (getMonth d) 0)|];
    cbn [fst snd];
    match goal with |- context [(?x =? 1)%Z] => destruct (Z.eqb_spec x 1) end;
    cbn [fst]; lia.
Qed.

Lemma stable_fetchPremiumRequests token userId teamInfo :
  stable (fetchPremiumRequests token userId teamInfo).
Proof.
  unfold fetchPremiumRequests, individualPremiumRequests, Team.getTeamUsage. stability.
Qed.

Section Refresh.
Variable t : string -> string.
Variable decodeSub : option string -> option string.

Lemma fetchMonthData_run token m y w :
  fetchMonthData t token m y w
  = (match invoiceEndpoint w m y token with
     | Returned inv => Returned (buildMonthData t inv)
     | Thrown e => Thrown e
     end, record (Http (PostMonthlyInvoice m y token)) w).
Proof.
  unfold fetchMonthData, fetchMonthlyInvoiceData, tryCatch, bind, request, ret, throw.
  destruct (invoiceEndpoint w m y token); reflexivity.
Qed.

(** A refresh that returns a snapshot has fetched the invoices of both
    periods, the active one first, and the snapshot holds the two month
    records built from them. *)
Lemma fetchCursorStats_both_months token w stats :
  (fetchCursorStats t decodeSub token w).1 = Returned stats ->
  let w' := (fetchCursorStats t decodeSub token w).2 in
  let '((m, y), (lm, ly)) := usageBasedPeriods (today w) in
  (month (currentMonth stats), year (currentMonth stats)) = (m, y)
  /\ (month (lastMonth stats), year (lastMonth stats)) = (lm, ly)
  /\ exists inv1 inv2 before,
       invoiceEndpoint w m y token = Returned inv1
       /\ invoiceEndpoint w lm ly token = Returned inv2
       /\ usageBasedPricing (currentMonth stats) = buildMonthData t inv1
       /\ usageBasedPricing (lastMonth stats) = buildMonthData t inv2
       /\ newEvents w w'
          = before ++ [Http (PostMonthlyInvoice m y token);
                       Http (PostMonthlyInvoice lm ly token)].
Proof.
  destruct (fetchCursorStats t decodeSub token w) as [out w'] eqn:Hrun.
  cbn [fst snd]. intros ->. cbv zeta.
  unfold fetchCursorStats in Hrun.
  set (userId := default "" _) in Hrun.
  unfold tryCatch in Hrun. unfold bind at 1 in Hrun.
  pose proof (Membership.stable_checkTeamMembership decodeSub token w) as E1.
  destruct (Team.checkTeamMembership decodeSub token w) as [[teamInfo|e] w1];
    [|discriminate].
  unfold bind at 1 in Hrun.
  pose proof (stable_fetchPremiumRequests token userId teamInfo w1) as E2.
  destruct (fetchPremiumRequests token userId teamInfo w1) as [[pr|e] w2];
    [|discriminate].
  cbn [snd] in E1, E2.
  pose proof (extends_trans _ _ _ E1 E2) as E.
  unfold bind at 1 in Hrun. unfold newDate in Hrun.
  rewrite (ext_today _ _ E) in Hrun.
  destruct (usageBasedPeriods (today w)) as [[m y] [lm ly]].
  unfold bind at 1 in Hrun. rewrite fetchMonthData_run in Hrun.
  cbn [invoiceEndpoint record] in Hrun. rewrite (ext_invoice _ _ E) in Hrun.
  destruct (invoiceEndpoint w m y token) as [inv1|e]; [|discriminate].
  unfold bind at 1 in Hrun. rewrite fetchMonthData_run in Hrun.
  cbn [invoiceEndpoint record] in Hrun. rewrite (ext_invoice _ _ E) in Hrun.
  destruct (invoiceEndpoint w lm ly token) as [inv2|e]; [|discriminate].
  cbn in Hrun. injection Hrun as <- <-. cbn.
  split; [done|]. split; [done|].
  destruct (ext_trace _ _ E) as [l Hl].
  exists inv1, inv2, l. repeat split; try done.
  apply newEvents_app. cbn. rewrite Hl. by rewrite <- !app_assoc.
Qed.

End Refresh.

(** C4: for a date of the calendar, the active period [fetchCursorStats]
    computes is the previous calendar month before day 3 (December of the
    year before when the month is January) and the current calendar month
    from day 3 on; the other period is the month before the active one;
    and a refresh that returns a snapshot has requested the invoices of
    both periods and returns both month records. *)
Theorem billing_period_anchor (t : string -> string)
    (decodeSub : option string -> option string) (token : string) (w : World) :
  (0 <= getMonth (today w) <= 11)%Z ->
  let active := activePeriod (today w) in
  let previous := precedingPeriod active in
  usageBasedPeriods (today w) = (active, previous)
  /\ active.2 = (if (getDate (today w) <? 3)%Z && (getMonth (today w) =? 0)%Z
                 then (getFullYear (today w) - 1)%Z else getFullYear (today w))
  /\ forall stats,
       (fetchCursorStats t decodeSub token w).1 = Returned stats ->
       (month (currentMonth stats), year (currentMonth stats)) = active
       /\ (month (lastMonth stats), year (lastMonth stats)) = previous
       /\ exists inv1 inv2 before,
            invoiceEndpoint w active.1 active.2 token = Returned inv1
            /\ invoiceEndpoint w previous.1 previous.2 token = Returned inv2
            /\ usageBasedPricing (currentMonth stats) = buildMonthData t inv1
            /\ usageBasedPricing (lastMonth stats) = buildMonthData t inv2
            /\ newEvents w (fetchCursorStats t decodeSub token w).2
               = before ++ [Http (PostMonthlyInvoice active.1 active.2 token);
                            Http (PostMonthlyInvoice previous.1 previous.2 token)].
Proof.
  intros Hm active previous.
  pose proof (usageBasedPeriods_spec (today w) Hm) as Hspec.
  fold active in Hspec. fold previous in Hspec.
  split; [exact Hspec|]. split; [apply activePeriod_year|].
  intros stats Hret.
  pose proof (fetchCursorStats_both_months t decodeSub token w stats Hret) as H.
  cbv zeta in H. rewrite Hspec in H.
  destruct active as [m y], previous as [lm ly]. exact H.
Qed.

(** A refresh on the second of January 2025: December and November 2024. *)
Lemma billing_period_anchor_witness :
  usageBasedPeriods (today Worlds.online) = ((12, 2024)%Z, (11, 2024)%Z)
  /\ exists stats,
       (fetchCursorStats Worlds.keys Worlds.decodeSub Worlds.token Worlds.online).1
       = Returned stats
       /\ (month (currentMonth stats), year (currentMonth stats)) = (12, 2024)%Z
       /\ (month (lastMonth stats), year (lastMonth stats)) = (11, 2024)%Z.
Proof.
  assert (Hm : (0 <= getMonth (today Worlds.online) <= 11)%Z) by (cbn; lia).
  destruct (billing_period_anchor Worlds.keys Worlds.decodeSub Worlds.token
              Worlds.online Hm) as (Hperiods & _ & Hboth).
  split; [exact Hperiods|].
  eexists. split; [vm_compute; reflexivity|].
  match goal with
  | |- (month (currentMonth ?s), _) = _ /\ _ =>
      destruct (Hboth s) as (Hcur & Hlast & _); [vm_compute; reflexivity|]
  end.
  split; [exact Hcur|exact Hlast].
Defined.

(** The refresh of the evaluation world, in full. *)
Example fetchCursorStats_online :
  let res := fetchCursorStats Worlds.keys Worlds.decodeSub Worlds.token Worlds.online in
  (match res.1 with
   | Returned stats =>
       (map totalDollars (items (usageBasedPricing (currentMonth stats))),
        length (items (usageBasedPricing (lastMonth stats))),
        UpdateStats.premiumPercent stats)
   | Thrown _ => ([], 0%nat, 0%float)
   end) = (["$6.00"], 0%nat, 24%float)
  /\ newEvents Worlds.online res.2
     = [ FileExists UserCacheFile; Http (GetUsage "user_01" Worlds.token);
         Http (PostTeams Worlds.token); FileWrite UserCacheFile;
         Http (GetUsage "user_01" Worlds.token);
         Http (PostMonthlyInvoice 12 2024 Worlds.token);
         Http (PostMonthlyInvoice 11 2024 Worlds.token) ].
Proof. vm_compute. split; reflexivity. Qed.

End BillingPeriod.

(** ** The items of a month record *)

Module MonthRecord.
Import Js Regex Patterns Api Captures PaymentLines MonthItems.

(** A group on the spine of a pattern is captured by every match. *)
Lemma alwaysCaptures_sound i r :
  alwaysCaptures i r = true ->
  forall st k res, rmatch r st k = Some res ->
    exists st', k st' = Some res /\ captured i (caps st').
Proof.
  induction r as [|p|r1 IH1 r2 IH2|r1 IH1 r2 IH2|greedy r1 IH1|j r1 IH1| | |];
    cbn [alwaysCaptures]; try discriminate; intros Hc st k res H.
  - cbn [rmatch] in H. apply orb_prop in Hc as [Hc|Hc].
    + apply (IH1 Hc) in H as (st1 & H & Hcap).
      apply RegexFacts.rmatch_grows in H as (st2 & H & Hg). eauto.
    + apply RegexFacts.rmatch_grows in H as (st1 & H & _).
      by apply (IH2 Hc) in H.
  - cbn [rmatch] in H. apply orb_prop in Hc as [Hc|Hc].
    + apply Nat.eqb_eq in Hc as <-.
      apply RegexFacts.rmatch_grows in H as (st1 & H & _).
      eexists. split; [exact H|]. cbn. eexists. by left.
    + apply (IH1 Hc) in H as (st1 & H & [v Hv]).
      eexists. split; [exact H|]. cbn. exists v. by right.
Qed.

Lemma exec_alwaysCaptures i r s m :
  alwaysCaptures i r = true -> exec r s = Some m -> is_Some (group i m).
Proof.
  intros Hc H. apply RegexFacts.searchFrom_matched in H as (st & res & H & Hg).
  apply RegexFacts.group_captured. rewrite Hg.
  apply (alwaysCaptures_sound i r Hc) in H as (st' & [= <-] & Hcap). exact Hcap.
Qed.

Section Items.
Variable t : string -> string.

(** The strategies always come to a label: the last one applies to
    every description. *)
Lemma resolveModel_defined desc : is_Some (resolveModel t desc).1.
Proof.
  unfold resolveModel, modelParsingStrategies. cbn [find condition parser].
  destruct (includes desc "tool calls"); [done|].
  destruct (exec genericModelPattern desc) as [m|] eqn:E; cbn [matched].
  - cbn. by apply RegexFacts.known_model_group with desc.
  - destruct (includes desc "extra fast premium request"); cbn; [|done].
    by destruct (capture 1 _).
Qed.

(** Every description that is parsed gets a model label. *)
Lemma parseDescription_defined desc p :
  parseDescription t desc = Some p -> is_Some (parsedModelName p).
Proof.
  unfold parseDescription.
  destruct (exec tokenBased desc) as [m|] eqn:E.
  - intros [= <-]. cbn. by apply (exec_alwaysCaptures 2 tokenBased desc).
  - destruct (exec original desc) as [m|].
    + pose proof (resolveModel_defined desc) as H.
      destruct (resolveModel t desc) as [name tool]. intros [= <-]. exact H.
    + destruct (exec leadingDigits desc); [|discriminate]. by intros [= <-].
Qed.

(** A turn of the loop adds no item or one, of the line it reads. *)
Lemma processItem_step pw cw us total item :
  exists extra total',
    processItem t pw cw (us, total) item = (us ++ extra, total')
    /\ (extra = []
        \/ exists u, extra = [u] /\ hasNumberCents item = true
                     /\ description u = Invoice.description item
                     /\ wellFormedItem u).
Proof.
  destruct (isCreditLine item) eqn:Hc.
  - rewrite (MidMonth.processItem_credit t pw cw us total item Hc).
    eexists [_], _. split; [reflexivity|]. right. eexists. split; [reflexivity|].
    unfold isCreditLine in Hc. apply andb_prop in Hc as [Hmark Hnum].
    repeat split; [exact Hnum|].
    unfold wellFormedItem, isPaymentItem. cbn [description paymentItem].
    by rewrite Hmark.
  - unfold processItem. rewrite (MidMonth.processMidMonthPayment_other t item total Hc).
    destruct (negb (Invoice.hasOwnCents item)).
    { exists [], total. split; [by rewrite app_nil_r|by left]. }
    unfold isCreditLine in Hc. unfold hasNumberCents.
    destruct (Invoice.cents item) as [| |c] eqn:Hcents;
      try (exists [], total; split; [by rewrite app_nil_r|by left]).
    rewrite andb_true_r in Hc.
    destruct (parseDescription t (Invoice.description item)) as [p|] eqn:Hp;
      [|exists [], total; split; [by rewrite app_nil_r|by left]].
    destruct (requestCount p =? 0)%float;
      [exists [], total; split; [by rewrite app_nil_r|by left]|].
    eexists [_], total. split; [reflexivity|]. right. eexists.
    split; [reflexivity|]. repeat split.
    unfold wellFormedItem, isPaymentItem. cbn [description usageItemOf].
    rewrite Hc. cbn. split; [|done].
    by eapply parseDescription_defined.
Qed.

Lemma fold_processItem_items pw cw items us total :
  exists extras,
    (fold_left (processItem t pw cw) items (us, total)).1 = us ++ extras
    /\ sublist (map description extras)
               (map Invoice.description (List.filter hasNumberCents items))
    /\ Forall wellFormedItem extras.
Proof.
  revert us total. induction items as [|item items IH]; intros us total.
  { exists []. cbn. by rewrite app_nil_r. }
  cbn [fold_left].
  destruct (processItem_step pw cw us total item) as (extra & total' & -> & Hextra).
  destruct (IH (us ++ extra) total') as (extras & -> & Hsub & Hwf).
  exists (extra ++ extras). split; [by rewrite app_assoc|].
  destruct Hextra as [->|(u & -> & Hnum & Hdesc & Hu)].
  - cbn [app List.filter]. split; [|done].
    destruct (hasNumberCents item); [|done]. cbn. by apply sublist_cons.
  - cbn [app List.filter map]. rewrite Hnum. cbn [map]. rewrite Hdesc.
    split; [by apply sublist_skip|by constructor].
Qed.

Lemma buildMonthData_items inv :
  sublist (map description (items (buildMonthData t inv)))
          (map Invoice.description
               (List.filter hasNumberCents (default [] (Invoice.items inv))))
  /\ Forall wellFormedItem (items (buildMonthData t inv)).
Proof.
  unfold buildMonthData.
  destruct (default [] (Invoice.items inv)) as [|item lines] eqn:E.
  { cbn. split; constructor. }
  destruct (calculatePaddingWidths (item :: lines)) as [pw cw].
  destruct (fold_processItem_items pw cw (item :: lines) [] 0%float)
    as (extras & Hfold & Hsub & Hwf).
  destruct (fold_left (processItem t pw cw) (item :: lines) ([], 0%float)) as [us total].
  cbn in Hfold. subst us. cbn [items]. by split.
Qed.

End Items.

Lemma paddingStep_skip acc item :
  countsForPadding item = false -> paddingStep acc item = acc.
Proof.
  unfold countsForPadding, hasNumberCents, paddingStep. destruct acc as [a b].
  destruct (Invoice.cents item); try reflexivity.
  cbn. by intros ->%negb_false_iff.
Qed.

Lemma fold_paddingStep_filter items acc :
  fold_left paddingStep (List.filter countsForPadding items) acc
  = fold_left paddingStep items acc.
Proof.
  revert acc. induction items as [|item items IH]; intros acc; [done|].
  cbn [List.filter fold_left]. destruct (countsForPadding item) eqn:E.
  - cbn [fold_left]. apply IH.
  - by rewrite (paddingStep_skip acc item E).
Qed.

(** X1: the items of a month record follow the lines of the invoice: their
    descriptions are, in the order of the invoice, descriptions of lines
    whose [cents] is a number; a line gives at most one item, and no item
    comes from anything but a line. *)
Theorem month_items_follow_invoice_lines (t : string -> string)
    (inv : Invoice.Response) :
  sublist (map description (items (buildMonthData t inv)))
          (map Invoice.description
               (List.filter hasNumberCents (default [] (Invoice.items inv)))).
Proof. by destruct (buildMonthData_items t inv). Qed.

(** X2: every item of a month record is one of two kinds: a payment item,
    without model label and discount mark, or an item with a model label
    and with the discount mark that says whether its description mentions
    a discount, case aside. *)
Theorem month_items_well_formed (t : string -> string) (inv : Invoice.Response) :
  Forall wellFormedItem (items (buildMonthData t inv)).
Proof. by destruct (buildMonthData_items t inv). Qed.

(** X3: the padding widths are those of the lines with a number for
    [cents] that are no mid-month payments: the other lines of an invoice
    do not change them. *)
Theorem calculatePaddingWidths_ignores_other_lines (items : list Invoice.Line) :
  calculatePaddingWidths (List.filter countsForPadding items)
  = calculatePaddingWidths items.
Proof. unfold calculatePaddingWidths. by rewrite fold_paddingStep_filter. Qed.

End MonthRecord.

(** ** Requests and errors, by the structure of a computation *)

Module Quiet.
Import Js Types Eff Team Api Frames Io Requests TeamData.

Lemma newEvents_refl w : newEvents w w = [].
Proof. apply newEvents_app. by rewrite app_nil_r. Qed.

Lemma newEvents_trans w w1 w2 :
  extends w w1 -> extends w1 w2 ->
  newEvents w w2 = newEvents w w1 ++ newEvents w1 w2.
Proof.
  intros [_ _ _ _ _ _ _ _ _ _ [l1 H1]] [_ _ _ _ _ _ _ _ _ _ [l2 H2]].
  rewrite (newEvents_app _ _ _ H1), (newEvents_app _ _ _ H2).
  apply newEvents_app. by rewrite H2, H1, app_assoc.
Qed.

Lemma failure_extends w w' r : extends w w' -> failure w' r = failure w r.
Proof. intros []. destruct r; cbn; congruence. Qed.

Lemma tryCatch_rethrow {A} (m : M A) w : tryCatch m (fun error => throw error) w = m w.
Proof. unfold tryCatch, throw. by destruct (m w) as [[a|e] w']. Qed.

Lemma tryCatch_throw_snd {A} (m : M A) (g : Error -> Error) w :
  (tryCatch m (fun error => throw (g error)) w).2 = (m w).2.
Proof. unfold tryCatch, throw. by destruct (m w) as [[a|e] w']. Qed.

Lemma bind_request_trace {A B} r (answer : World -> Outcome A) (f : A -> M B) :
  (forall a, stable (f a)) ->
  forall w, exists l, trace (bind (request r answer) f w).2 = trace w ++ Http r :: l.
Proof.
  intros Hf w. unfold bind, request. destruct (answer w) as [a|e].
  - destruct (ext_trace _ _ (Hf a (record (Http r) w))) as [l Hl].
    exists l. rewrite Hl. cbn. by rewrite <- app_assoc.
  - by exists [].
Qed.

(** *** The two cache functions of team.ts *)

Lemma loadUserCache_run w :
  loadUserCache w
  = (Returned (stored (userCacheFile w)),
     match userCacheFile w with
     | Missing => record (FileExists UserCacheFile) w
     | _ => record (FileRead UserCacheFile) (record (FileExists UserCacheFile) w)
     end).
Proof.
  unfold loadUserCache, tryCatch, bind, existsUserCache, readUserCache, ret.
  destruct (userCacheFile w) eqn:E; cbn; rewrite ?E; reflexivity.
Qed.

Lemma saveUserCache_run c w :
  saveUserCache c w
  = (Returned tt,
     if writable w UserCacheFile
     then record (FileWrite UserCacheFile) (setUserCacheFile c w)
     else w).
Proof.
  unfold saveUserCache, tryCatch, writeUserCache, ret.
  by destruct (writable w UserCacheFile).
Qed.

Lemma loadUserCache_quiet w :
  userCacheFile (loadUserCache w).2 = userCacheFile w
  /\ exists l, trace (loadUserCache w).2 = trace w ++ l
               /\ forall r, ~ In (Http r) l.
Proof.
  rewrite loadUserCache_run. cbn [snd].
  destruct (userCacheFile w) eqn:E; cbn; rewrite ?E; (split; [done|]).
  - exists [FileExists UserCacheFile]. split; [done|]. intros r [|[]]; discriminate.
  - exists [FileExists UserCacheFile; FileRead UserCacheFile].
    split; [by rewrite <- app_assoc|]. intros r [|[|[]]]; discriminate.
  - exists [FileExists UserCacheFile; FileRead UserCacheFile].
    split; [by rewrite <- app_assoc|]. intros r [|[|[]]]; discriminate.
Qed.

Lemma stable_loadUserCache : stable loadUserCache.
Proof. unfold loadUserCache. stability. Qed.

Lemma stable_saveUserCache c : stable (saveUserCache c).
Proof. unfold saveUserCache. stability. Qed.

(** *** Computations without requests *)

Lemma silent_failFast {A} (m : M A) : silent m -> failFast m.
Proof. intros Hs w r e Hin. by destruct (Hs w r). Qed.

Lemma silent_pure {A} (m : M A) : (forall w, (m w).2 = w) -> silent m.
Proof. intros H w r. rewrite H, newEvents_refl. intros []. Qed.

Lemma silent_ret {A} (a : A) : silent (ret a).
Proof. by apply silent_pure. Qed.

Lemma silent_throw {A} e : silent (throw (A := A) e).
Proof. by apply silent_pure. Qed.

Lemma silent_lift {A} (o : Outcome A) : silent (lift o).
Proof. by apply silent_pure. Qed.

Lemma silent_newDate : silent newDate.
Proof. by apply silent_pure. Qed.

Lemma silent_dateNow : silent dateNow.
Proof. by apply silent_pure. Qed.

Lemma silent_typeError {A} what : silent (typeError (A := A) what).
Proof. by apply silent_pure. Qed.

Lemma silent_loadUserCache : silent loadUserCache.
Proof.
  intros w r. destruct (loadUserCache_quiet w) as (_ & l & Hl & Hno).
  by rewrite (newEvents_app _ _ _ Hl).
Qed.

Lemma silent_saveUserCache c : silent (saveUserCache c).
Proof.
  intros w r. rewrite saveUserCache_run. cbn [snd].
  destruct (writable w UserCacheFile).
  - rewrite (newEvents_app w _ [FileWrite UserCacheFile]) by done.
    intros [|[]]; discriminate.
  - rewrite newEvents_refl. intros [].
Qed.

(** *** Computations that stop at the first failed request *)

Lemma failFast_request {A} r (answer : World -> Outcome A) :
  (forall w, failed (answer w) = failure w r) -> failFast (request r answer).
Proof.
  intros Hans w r' e. unfold request. cbn [fst snd].
  rewrite (newEvents_app w (record (Http r) w) [Http r]) by done.
  intros [[= <-]|[]] Hf. rewrite <- Hans in Hf.
  split; [|by exists []]. destruct (answer w); cbn in Hf; [discriminate|].
  by injection Hf as ->.
Qed.

Lemma failFast_bind {A B} (m : M A) (f : A -> M B) :
  stable m -> (forall a, stable (f a)) ->
  failFast m -> (forall a, failFast (f a)) -> failFast (bind m f).
Proof.
  intros Sm Sf Hm Hf w r e. unfold bind.
  specialize (Sm w). specialize (Hm w r e).
  destruct (m w) as [[a|e'] w1].
  2:{ cbn [fst snd] in *. intros Hin Hfail.
      destruct (Hm Hin Hfail) as [[= ->] Hl]. by split. }
  cbn [fst snd] in *. rewrite (newEvents_trans w w1 _ Sm (Sf a w1)).
  intros [Hin|Hin]%in_app_or Hfail.
  - by destruct (Hm Hin Hfail) as [? _].
  - rewrite <- (failure_extends w w1 r Sm) in Hfail.
    destruct (Hf a w1 r e Hin Hfail) as [Hres [l Hl]].
    split; [done|]. exists (newEvents w w1 ++ l). by rewrite Hl, app_assoc.
Qed.

Lemma failFast_rethrow {A} (m : M A) :
  failFast m -> failFast (tryCatch m (fun error => throw error)).
Proof.
  intros Hm w r e. specialize (Hm w r e).
  unfold tryCatch, throw. by destruct (m w) as [[a|e'] w1].
Qed.

(** *** Where the error of a computation comes from *)

Lemma raises_returns {A} P (m : M A) :
  (forall w, exists a, (m w).1 = Returned a) -> raises P m.
Proof. intros H w e He. destruct (H w) as [a Ha]. congruence. Qed.

Lemma raises_ret {A} P (a : A) : raises P (ret a).
Proof. apply raises_returns. intros w. by exists a. Qed.

Lemma raises_newDate P : raises P newDate.
Proof. apply raises_returns. intros w. by eexists. Qed.

Lemma raises_dateNow P : raises P dateNow.
Proof. apply raises_returns. intros w. by eexists. Qed.

Lemma raises_loadUserCache P : raises P loadUserCache.
Proof. apply raises_returns. intros w. rewrite loadUserCache_run. by eexists. Qed.

Lemma raises_saveUserCache P c : raises P (saveUserCache c).
Proof. apply raises_returns. intros w. rewrite saveUserCache_run. by eexists. Qed.

Lemma raises_request {A} P r (answer : World -> Outcome A) :
  (forall w, failed (answer w) = failure w r) -> raises P (request r answer).
Proof.
  intros Hans w e. unfold request. cbn [fst snd]. intros He. left. exists r.
  rewrite (newEvents_app w (record (Http r) w) [Http r]) by done.
  split; [by left|]. by rewrite <- Hans, He.
Qed.

Lemma raises_bind {A B} P (m : M A) (f : A -> M B) :
  stable m -> (forall a, stable (f a)) ->
  raises P m -> (forall a, raises P (f a)) -> raises P (bind m f).
Proof.
  intros Sm Sf Hm Hf w e. unfold bind.
  specialize (Sm w). specialize (Hm w e).
  destruct (m w) as [[a|e'] w1]; cbn [fst snd] in *.
  - intros He. destruct (Hf a w1 e He) as [(r & Hin & Hfail)|HP]; [left|by right].
    exists r. rewrite (newEvents_trans w w1 _ Sm (Sf a w1)).
    split; [apply in_or_app; by right|]. by rewrite <- (failure_extends w w1 r Sm).
  - intros [= ->]. by apply Hm.
Qed.

Lemma raises_rethrow {A} P (m : M A) :
  raises P m -> raises P (tryCatch m (fun error => throw error)).
Proof.
  intros Hm w e. specialize (Hm w e).
  unfold tryCatch, throw. by destruct (m w) as [[a|e'] w1].
Qed.

(** The errors [extractUserUsage] throws of its own. *)
Lemma extractUserUsage_thrown teamUsage userId e :
  extractUserUsage teamUsage userId = Thrown e ->
  message e = memberNotFound \/ message e = gpt4NotFound.
Proof.
  unfold extractUserUsage.
  destruct (find _ (teamMemberUsage teamUsage)) as [member|]; [|intros [= <-]; by left].
  destruct (find _ (usageData member)) as [data|]; [discriminate|].
  intros [= <-]. by right.
Qed.

Lemma raises_extractUserUsage teamUsage userId :
  raises usageDataMissing (lift (extractUserUsage teamUsage userId)).
Proof.
  intros w e. unfold lift. cbn [fst]. intros He. right.
  unfold usageDataMissing, usageDataErrors.
  destruct (extractUserUsage_thrown _ _ _ He) as [-> | ->]; cbn; tauto.
Qed.

Lemma raises_typeError_numRequests {A} :
  raises usageDataMissing (typeError (A := A) "numRequests").
Proof. intros w e [= <-]. right. unfold usageDataMissing. cbn. tauto. Qed.

Create HintDb requests discriminated.
#[export] Hint Resolve silent_ret silent_throw silent_lift silent_newDate
  silent_dateNow silent_typeError silent_loadUserCache silent_saveUserCache
  stable_loadUserCache stable_saveUserCache
  raises_ret raises_newDate raises_dateNow raises_loadUserCache
  raises_saveUserCache raises_extractUserUsage raises_typeError_numRequests
  : requests.

(** [failFast] and [raises] of a computation built from the primitives
    with [bind], rethrowing handlers and case distinctions. *)
Ltac failfast :=
  repeat first
    [ progress intros
    | solve [apply silent_failFast; auto with requests]
    | solve [apply failFast_request; intros; reflexivity]
    | apply failFast_rethrow
    | apply failFast_bind; [solve [auto with requests stable | stability]
                           |solve [intros; auto with requests stable | stability] | | ]
    | match goal with
      | |- failFast (match ?x with _ => _ end) => destruct x
      | |- failFast (if ?b then _ else _) => destruct b
      | |- failFast (let '(_, _) := ?x in _) => destruct x
      end ].

Ltac raising :=
  repeat first
    [ progress intros
    | solve [auto with requests]
    | solve [apply raises_request; intros; reflexivity]
    | apply raises_rethrow
    | apply raises_bind; [solve [auto with requests stable | stability]
                         |solve [intros; auto with requests stable | stability] | | ]
    | match goal with
      | |- raises _ (match ?x with _ => _ end) => destruct x
      | |- raises _ (if ?b then _ else _) => destruct b
      | |- raises _ (let '(_, _) := ?x in _) => destruct x
      end ].

End Quiet.

(** ** Team usage and the membership cache *)

Module TeamCache.
Import Js Types Eff Team Frames Io Requests TeamData Quiet.

(** X4: [extractUserUsage] returns the usage of the ["gpt-4"] entry of the
    member with the given id, no request count read as 0; it throws the
    first of its two errors exactly when the response has no member with
    that id, and the second when that member has no ["gpt-4"] entry. *)
Theorem extractUserUsage_cases (teamUsage : TeamUsageResponse) (userId : Z) :
  match extractUserUsage teamUsage userId with
  | Returned u =>
      exists member data,
        In member (teamMemberUsage teamUsage) /\ memberId member = userId
        /\ In data (usageData member) /\ modelType data = "gpt-4"
        /\ maxRequestUsage u = memberMaxRequestUsage data
        /\ numRequests u = default 0%float (memberNumRequests data)
  | Thrown e =>
      (message e = memberNotFound
       /\ forall member, In member (teamMemberUsage teamUsage) -> memberId member <> userId)
      \/ (message e = gpt4NotFound
          /\ exists member, In member (teamMemberUsage teamUsage)
               /\ memberId member = userId
               /\ forall data, In data (usageData member) -> modelType data <> "gpt-4")
  end.
Proof.
  unfold extractUserUsage.
  destruct (find _ (teamMemberUsage teamUsage)) as [member|] eqn:Hm.
  - apply find_some in Hm as [Hin Hid]. apply Z.eqb_eq in Hid.
    destruct (find _ (usageData member)) as [data|] eqn:Hd.
    + apply find_some in Hd as [Hind Hty]. apply String.eqb_eq in Hty.
      exists member, data. by repeat split.
    + right. split; [done|]. exists member. repeat split; [done..|].
      intros data Hind Hty. eapply find_none in Hd; [|exact Hind].
      cbn in Hd. by rewrite Hty, String.eqb_refl in Hd.
  - left. split; [done|]. intros member Hin Hid.
    eapply find_none in Hm; [|exact Hin]. cbn in Hm.
    by rewrite Hid, Z.eqb_refl in Hm.
Qed.



Section Check.
Variable decodeSub : option string -> option string.

Lemma checkTeamMembership_hit token w m :
  cachedMembership (subjectOf decodeSub token) (stored (userCacheFile w)) = Some m ->
  checkTeamMembership decodeSub token w = (Returned m, (loadUserCache w).2).
Proof.
  intros Hhit. unfold checkTeamMembership. rewrite tryCatch_rethrow.
  cbv zeta. unfold bind at 1. rewrite loadUserCache_run. cbn [fst snd].
  unfold subjectOf in Hhit. rewrite Hhit. reflexivity.
Qed.

(** A call that finds its answer in the cache. *)
Lemma checkTeamMembership_hit_quiet token w m :
  cachedMembership (subjectOf decodeSub token) (stored (userCacheFile w)) = Some m ->
  let res := checkTeamMembership decodeSub token w in
  res.1 = Returned m /\ noRequest w res.2 /\ userCacheFile res.2 = userCacheFile w.
Proof.
  intros Hc. cbv zeta. rewrite (checkTeamMembership_hit token w m Hc). cbn [fst snd].
  destruct (loadUserCache_quiet w) as (Hfile & l & Hl & Hno).
  split; [done|]. split; [|done].
  intros r. by rewrite (newEvents_app _ _ _ Hl).
Qed.

(** A call that does not, and returns: what it leaves in the cache. *)
Lemma checkTeamMembership_miss_saved token w m w1 :
  cachedMembership (subjectOf decodeSub token) (stored (userCacheFile w)) = None ->
  writable w UserCacheFile = true ->
  checkTeamMembership decodeSub token w = (Returned m, w1) ->
  exists lastChecked,
    userCacheFile w1
    = Stored {| cacheUserId := default 0%Z (userId m);
                cacheJwtSub := subjectOf decodeSub token;
                cacheIsTeamMember := isTeamMember m;
                cacheTeamId := teamId m;
                lastChecked := lastChecked;
                cacheStartOfMonth := startOfMonth m |}.
Proof.
  intros Hmiss Hw. unfold checkTeamMembership. rewrite tryCatch_rethrow.
  cbv zeta. unfold bind at 1. rewrite loadUserCache_run. cbn [fst snd].
  unfold subjectOf in *. rewrite Hmiss. clear Hmiss.
  set (w0 := match userCacheFile w with Missing => _ | _ => _ end).
  assert (Hw0 : writable w0 UserCacheFile = true)
    by (subst w0; by destruct (userCacheFile w)).
  clearbody w0. clear Hw.
  unfold bind, request, ret, dateNow. cbn.
  destruct (usageEndpoint w0 _ token) as [usage|]; [|discriminate].
  destruct (teamsEndpoint w0 token) as [info|]; [|discriminate].
  destruct (id <$> teams info ≫= head) as [tid|]; cbn.
  - destruct (_ && _); cbn.
    + destruct (teamEndpoint w0 tid token); cbn; [|discriminate].
      rewrite saveUserCache_run. cbn. rewrite Hw0. intros [= <- <-]. cbn. by eexists.
    + rewrite saveUserCache_run. cbn. rewrite Hw0. intros [= <- <-]. cbn. by eexists.
  - rewrite saveUserCache_run. cbn. rewrite Hw0. intros [= <- <-]. cbn. by eexists.
Qed.

End Check.

(** X6: [checkTeamMembership] asks the service exactly when the cache does
    not answer. With a cache record of the subject of the token and with
    a start of month it returns the record, makes no request and leaves
    the cache file; otherwise it requests /api/usage. *)
Theorem checkTeamMembership_cache_first
    (decodeSub : option string -> option string) (token : string) (w : World) :
  let res := checkTeamMembership decodeSub token w in
  match cachedMembership (subjectOf decodeSub token) (stored (userCacheFile w)) with
  | Some m =>
      res.1 = Returned m /\ noRequest w res.2
      /\ userCacheFile res.2 = userCacheFile w
  | None =>
      In (Http (GetUsage (default "" (split token "%3A%3A" !! 0%nat)) token))
         (newEvents w res.2)
  end.
Proof.
  cbv zeta.
  destruct (cachedMembership _ _) as [m|] eqn:Hc.
  - by apply checkTeamMembership_hit_quiet.
  - unfold checkTeamMembership. rewrite tryCatch_rethrow.
    cbv zeta. unfold bind at 1. rewrite loadUserCache_run. cbn [fst snd].
    unfold subjectOf in Hc. rewrite Hc.
    match goal with
    | |- context [bind (request ?r ?a) ?f ?w0] =>
        destruct (bind_request_trace r a f) with (w := w0) as [l Hl]
    end.
    { intros a. stability. }
    destruct (loadUserCache_quiet w) as (_ & l0 & Hl0 & _).
    rewrite loadUserCache_run in Hl0. cbn [snd] in Hl0.
    erewrite newEvents_app; [|rewrite Hl, Hl0, <- app_assoc; reflexivity].
    apply in_or_app. right. by left.
Qed.

(** X7: after a call of [checkTeamMembership] that returned a membership
    with a start of month, on a cache file that can be written, the next
    call with the same token makes no request and returns the same
    membership from the cache, but for the user id: a missing one comes
    back as 0. *)
Theorem checkTeamMembership_twice
    (decodeSub : option string -> option string) (token : string)
    (w : World) (m : Membership) (w1 : World) :
  checkTeamMembership decodeSub token w = (Returned m, w1) ->
  writable w UserCacheFile = true ->
  truthy (startOfMonth m) = true ->
  let again := checkTeamMembership decodeSub token w1 in
  again.1 = Returned {| isTeamMember := isTeamMember m;
                        teamId := teamId m;
                        userId := Some (default 0%Z (userId m));
                        startOfMonth := startOfMonth m |}
  /\ noRequest w1 again.2
  /\ userCacheFile again.2 = userCacheFile w1.
Proof.
  intros Hrun Hw Hstart.
  apply checkTeamMembership_hit_quiet.
  destruct (cachedMembership (subjectOf decodeSub token) (stored (userCacheFile w)))
    as [m'|] eqn:Hc.
  - rewrite (checkTeamMembership_hit decodeSub token w m' Hc) in Hrun.
    injection Hrun as -> <-.
    destruct (loadUserCache_quiet w) as (-> & _).
    rewrite Hc. f_equal.
    unfold cachedMembership in Hc. destruct (stored _) as [c|]; [|done].
    destruct (_ && _); [|done]. by injection Hc as <-.
  - destruct (checkTeamMembership_miss_saved decodeSub token w m w1 Hc Hw Hrun) as [lc ->].
    cbn. rewrite Hstart. by rewrite bool_decide_eq_true_2.
Qed.

Lemma checkTeamMembership_twice_witness :
  let w1 := (checkTeamMembership Worlds.decodeSub Worlds.token Worlds.online).2 in
  let again := checkTeamMembership Worlds.decodeSub Worlds.token w1 in
  again.1 = Returned {| isTeamMember := false; teamId := None; userId := Some 0%Z;
                        startOfMonth := "2024-12-15T00:00:00.000Z" |}
  /\ noRequest w1 again.2
  /\ userCacheFile again.2 = userCacheFile w1.
Proof.
  apply (checkTeamMembership_twice Worlds.decodeSub Worlds.token Worlds.online
           {| isTeamMember := false; teamId := None; userId := None;
              startOfMonth := "2024-12-15T00:00:00.000Z" |}
           (checkTeamMembership Worlds.decodeSub Worlds.token Worlds.online).2).
  - vm_compute. reflexivity.
  - reflexivity.
  - reflexivity.
Defined.

Lemma failFast_checkTeamMembership decodeSub token :
  failFast (checkTeamMembership decodeSub token).
Proof. unfold checkTeamMembership. cbv zeta. failfast. Qed.

Lemma failFast_getTeamUsage token teamId : failFast (getTeamUsage token teamId).
Proof. unfold getTeamUsage. failfast. Qed.

Lemma raises_checkTeamMembership P decodeSub token :
  raises P (checkTeamMembership decodeSub token).
Proof. unfold checkTeamMembership. cbv zeta. raising. Qed.

(** X8: [checkTeamMembership] throws nothing of its own: with answers of
    the declared types, the error it throws is the error of a request it
    made. *)
Theorem checkTeamMembership_throws_request_errors
    (decodeSub : option string -> option string) (token : string) (w : World)
    (e : Error) :
  let res := checkTeamMembership decodeSub token w in
  res.1 = Thrown e -> requestFailed w res.2 e.
Proof.
  cbv zeta. intros He.
  destruct (raises_checkTeamMembership (fun _ => False) decodeSub token w e He)
    as [H|[]].
  exact H.
Qed.

Lemma checkTeamMembership_throws_request_errors_witness :
  requestFailed Worlds.teamDetailsDown
    (checkTeamMembership Worlds.decodeSub Worlds.token Worlds.teamDetailsDown).2
    Worlds.networkError.
Proof.
  apply (checkTeamMembership_throws_request_errors
           Worlds.decodeSub Worlds.token Worlds.teamDetailsDown Worlds.networkError).
  vm_compute. reflexivity.
Defined.

End TeamCache.

(** ** The requests and the errors of a refresh *)

Module Refresh.
Import Js Types Eff Team Api Frames Io Requests TeamData Quiet.

Section Stats.
Variable t : string -> string.
Variable decodeSub : option string -> option string.

Lemma stable_fetchMonthData token month year :
  stable (fetchMonthData t token month year).
Proof. unfold fetchMonthData, fetchMonthlyInvoiceData. stability. Qed.

Lemma failFast_fetchPremiumRequests token userId teamInfo :
  failFast (fetchPremiumRequests token userId teamInfo).
Proof.
  unfold fetchPremiumRequests, individualPremiumRequests, getTeamUsage. cbv zeta. failfast.
Qed.

Lemma failFast_fetchMonthData token month year :
  failFast (fetchMonthData t token month year).
Proof. unfold fetchMonthData, fetchMonthlyInvoiceData. failfast. Qed.

Lemma raises_fetchPremiumRequests token userId teamInfo :
  raises usageDataMissing (fetchPremiumRequests token userId teamInfo).
Proof.
  unfold fetchPremiumRequests, individualPremiumRequests, getTeamUsage. cbv zeta. raising.
Qed.

Lemma raises_fetchMonthData P token month year :
  raises P (fetchMonthData t token month year).
Proof. unfold fetchMonthData, fetchMonthlyInvoiceData. raising. Qed.

(** The steps of [fetchCursorStats] after the membership check. *)
Ltac steps :=
  repeat first
    [ apply stable_fetchMonthData
    | apply BillingPeriod.stable_fetchPremiumRequests
    | solve [auto with stable]
    | match goal with
      | |- forall _, _ => intro
      | |- stable (bind _ _) => apply stable_bind
      | |- stable (let '(_, _) := ?x in _) => destruct x
      end ].

Lemma failFast_fetchCursorStats token : failFast (fetchCursorStats t decodeSub token).
Proof.
  unfold fetchCursorStats. cbv zeta. apply failFast_rethrow.
  apply failFast_bind;
    [apply Membership.stable_checkTeamMembership|steps
    |apply TeamCache.failFast_checkTeamMembership|intros teamInfo].
  apply failFast_bind;
    [steps|steps|apply failFast_fetchPremiumRequests|intros premium].
  apply failFast_bind; [steps|steps|by apply silent_failFast, silent_newDate|intros d].
  destruct (usageBasedPeriods d) as [[m1 y1] [m2 y2]].
  apply failFast_bind; [steps|steps|apply failFast_fetchMonthData|intros cur].
  apply failFast_bind; [steps|steps|apply failFast_fetchMonthData|intros last].
  apply silent_failFast, silent_ret.
Qed.

Lemma raises_fetchCursorStats token :
  raises usageDataMissing (fetchCursorStats t decodeSub token).
Proof.
  unfold fetchCursorStats. cbv zeta. apply raises_rethrow.
  apply raises_bind;
    [apply Membership.stable_checkTeamMembership|steps
    |apply TeamCache.raises_checkTeamMembership|intros teamInfo].
  apply raises_bind;
    [steps|steps|apply raises_fetchPremiumRequests|intros premium].
  apply raises_bind; [steps|steps|apply raises_newDate|intros d].
  destruct (usageBasedPeriods d) as [[m1 y1] [m2 y2]].
  apply raises_bind; [steps|steps|apply raises_fetchMonthData|intros cur].
  apply raises_bind; [steps|steps|apply raises_fetchMonthData|intros last].
  apply raises_ret.
Qed.

End Stats.

(** X9: a refresh stops at the first request that fails: when a request
    made by [fetchCursorStats] fails, it is the last thing the refresh
    does, and the refresh throws the error of that request. *)
Theorem fetchCursorStats_fail_fast
    (t : string -> string) (decodeSub : option string -> option string)
    (token : string) (w : World) (r : Request) (e : Error) :
  let res := fetchCursorStats t decodeSub token w in
  In (Http r) (newEvents w res.2) ->
  failure w r = Some e ->
  res.1 = Thrown e /\ exists l, newEvents w res.2 = l ++ [Http r].
Proof. cbv zeta. apply failFast_fetchCursorStats. Qed.

Lemma fetchCursorStats_fail_fast_witness :
  let res := fetchCursorStats Worlds.keys Worlds.decodeSub Worlds.token
               Worlds.teamDetailsDown in
  res.1 = Thrown Worlds.networkError
  /\ exists l, newEvents Worlds.teamDetailsDown res.2
               = l ++ [Http (PostTeam 7 Worlds.token)].
Proof.
  apply (fetchCursorStats_fail_fast Worlds.keys Worlds.decodeSub Worlds.token
           Worlds.teamDetailsDown (PostTeam 7 Worlds.token) Worlds.networkError).
  - vm_compute. tauto.
  - reflexivity.
Defined.

(** X10: with answers of the declared types, the error a refresh throws
    is the error of a request it made, or else says that usage data is
    missing: one of the two errors of [extractUserUsage], or the error of
    reading the request count off a usage answer without a ["gpt-4"]
    entry. *)
Theorem fetchCursorStats_error_sources
    (t : string -> string) (decodeSub : option string -> option string)
    (token : string) (w : World) (e : Error) :
  let res := fetchCursorStats t decodeSub token w in
  res.1 = Thrown e ->
  requestFailed w res.2 e \/ usageDataMissing e.
Proof. cbv zeta. apply raises_fetchCursorStats. Qed.

Lemma fetchCursorStats_error_sources_witness :
  requestFailed Worlds.teamDetailsDown
    (fetchCursorStats Worlds.keys Worlds.decodeSub Worlds.token Worlds.teamDetailsDown).2
    Worlds.networkError
  \/ usageDataMissing Worlds.networkError.
Proof.
  apply (fetchCursorStats_error_sources Worlds.keys Worlds.decodeSub Worlds.token
           Worlds.teamDetailsDown Worlds.networkError).
  vm_compute. reflexivity.
Defined.

(** The second kind of error: every request is answered, and the refresh
    stops at the usage of the team, before any invoice is asked for. *)
Example fetchCursorStats_member_missing :
  let res := fetchCursorStats Worlds.keys Worlds.decodeSub Worlds.token
               teamWithoutMember in
  message <$> failed res.1 = Some memberNotFound
  /\ newEvents teamWithoutMember res.2
     = [ FileExists UserCacheFile; Http (GetUsage "user_01" Worlds.token);
         Http (PostTeams Worlds.token); Http (PostTeam 7 Worlds.token);
         FileWrite UserCacheFile; Http (PostTeamUsage 7 Worlds.token) ].
Proof. vm_compute. split; reflexivity. Qed.

(** X11: the premium quota takes one request: the usage of the team for a
    team member with a team id and a user id, and /api/usage of the user
    otherwise, never both. *)
Theorem fetchPremiumRequests_one_request
    (token userId : string) (teamInfo : Team.Membership) (w : World) :
  newEvents w (fetchPremiumRequests token userId teamInfo w).2
  = [ Http (match Team.teamId teamInfo with
            | Some teamId =>
                if Team.isTeamMember teamInfo && Team.truthyId (Team.teamId teamInfo)
                   && Team.truthyId (Team.userId teamInfo)
                then PostTeamUsage teamId token
                else GetUsage userId token
            | None => GetUsage userId token
            end) ].
Proof.
  unfold fetchPremiumRequests, individualPremiumRequests, getTeamUsage. cbv zeta.
  destruct (Team.isTeamMember teamInfo && Team.truthyId (Team.teamId teamInfo)
            && Team.truthyId (Team.userId teamInfo)) eqn:Hcond.
  - apply andb_prop in Hcond as [[_ Htid]%andb_prop Huid].
    destruct (Team.teamId teamInfo) as [tid|]; [|discriminate].
    destruct (Team.userId teamInfo) as [uid|]; [|discriminate].
    unfold bind. rewrite tryCatch_rethrow. unfold request, lift, ret.
    destruct (teamUsageEndpoint w tid token) as [usage|]; cbn [fst snd];
      [destruct (extractUserUsage usage uid)|]; by apply newEvents_app.
  - assert (H : newEvents w (individualPremiumRequests token userId w).2
                = [Http (GetUsage userId token)]).
    { unfold individualPremiumRequests, bind, request.
      destruct (usageEndpoint w userId token) as [resp|]; [|by apply newEvents_app].
      destruct (Types.gpt4 resp); by apply newEvents_app. }
    unfold individualPremiumRequests in H.
    by destruct (Team.teamId teamInfo).
Qed.

End Refresh.

(** ** The cache of the exchange rates *)

Module RatesCache.
Import Js Types Eff Currency Frames Io Requests Rates Quiet.

Lemma getCachedRates_run w :
  getCachedRates w
  = (Returned (freshRates w),
     match currencyCacheFile w with
     | Missing => record (FileExists CurrencyCacheFile) w
     | _ => record (FileRead CurrencyCacheFile) (record (FileExists CurrencyCacheFile) w)
     end).
Proof.
  unfold getCachedRates, freshRates, tryCatch, bind, existsCurrencyCache,
    readCurrencyCache, dateNow, ret.
  destruct (currencyCacheFile w) eqn:E; cbn; rewrite ?E; try reflexivity.
  cbn. by destruct (_ <? _)%float.
Qed.

Lemma getCachedRates_quiet w :
  currencyCacheFile (getCachedRates w).2 = currencyCacheFile w
  /\ writable (getCachedRates w).2 = writable w
  /\ now (getCachedRates w).2 = now w
  /\ ratesEndpoint (getCachedRates w).2 = ratesEndpoint w
  /\ exists l, trace (getCachedRates w).2 = trace w ++ l
               /\ forall r, ~ In (Http r) l.
Proof.
  rewrite getCachedRates_run. cbn [snd].
  destruct (currencyCacheFile w) eqn:E; cbn; rewrite ?E; (repeat split; try done).
  - exists [FileExists CurrencyCacheFile]. split; [done|]. intros r [|[]]; discriminate.
  - exists [FileExists CurrencyCacheFile; FileRead CurrencyCacheFile].
    split; [by rewrite <- app_assoc|]. intros r [|[|[]]]; discriminate.
  - exists [FileExists CurrencyCacheFile; FileRead CurrencyCacheFile].
    split; [by rewrite <- app_assoc|]. intros r [|[|[]]]; discriminate.
Qed.

Lemma saveCurrencyCache_run r w :
  saveCurrencyCache r w
  = (Returned tt,
     if writable w CurrencyCacheFile
     then record (FileWrite CurrencyCacheFile)
            (setCurrencyCacheFile {| rates := r; timestamp := now w |} w)
     else w).
Proof.
  unfold saveCurrencyCache, tryCatch, bind, dateNow, writeCurrencyCache, ret.
  by destruct (writable w CurrencyCacheFile).
Qed.

Lemma fetchExchangeRates_hit w r :
  freshRates w = Some r ->
  fetchExchangeRates w = (Returned r, (getCachedRates w).2).
Proof.
  intros H. unfold fetchExchangeRates, tryCatch. unfold bind at 1.
  rewrite getCachedRates_run. cbn [fst snd]. by rewrite H.
Qed.

Lemma fetchExchangeRates_hit_quiet w r :
  freshRates w = Some r ->
  let res := fetchExchangeRates w in
  res.1 = Returned r /\ noRequest w res.2
  /\ currencyCacheFile res.2 = currencyCacheFile w.
Proof.
  intros H. cbv zeta. rewrite (fetchExchangeRates_hit w r H). cbn [fst snd].
  destruct (getCachedRates_quiet w) as (Hfile & _ & _ & _ & l & Hl & Hno).
  split; [done|]. split; [|done]. intros q. by rewrite (newEvents_app _ _ _ Hl).
Qed.

Lemma fetchExchangeRates_miss w resp :
  freshRates w = None ->
  ratesEndpoint w = Returned resp ->
  is_Some (usd resp) ->
  fetchExchangeRates w
  = (Returned resp,
     (saveCurrencyCache resp (record (Http GetCurrencyRates) (getCachedRates w).2)).2).
Proof.
  intros H Hnet [table Husd]. unfold fetchExchangeRates, tryCatch. unfold bind at 1.
  destruct (getCachedRates_quiet w) as (_ & _ & _ & Hrates & _).
  rewrite getCachedRates_run in *. cbn [fst snd] in *. rewrite H.
  unfold bind, request. rewrite Hrates, Hnet, Husd.
  rewrite saveCurrencyCache_run. reflexivity.
Qed.

(** X12: [fetchExchangeRates] asks the feed exactly when the cache has no
    rates younger than 24 hours. With such rates it returns them, makes no
    request and leaves the cache file; otherwise it requests the feed, and
    returns the answer of the feed if that has rates, whether or not the
    cache file can be written. *)
Theorem fetchExchangeRates_cache_first (w : World) :
  let res := fetchExchangeRates w in
  match freshRates w with
  | Some r =>
      res.1 = Returned r /\ noRequest w res.2
      /\ currencyCacheFile res.2 = currencyCacheFile w
  | None =>
      In (Http GetCurrencyRates) (newEvents w res.2)
      /\ forall resp, ratesEndpoint w = Returned resp -> is_Some (usd resp) ->
                      res.1 = Returned resp
  end.
Proof.
  cbv zeta. destruct (freshRates w) as [r|] eqn:H.
  - by apply fetchExchangeRates_hit_quiet.
  - split.
    + unfold fetchExchangeRates. rewrite tryCatch_throw_snd. unfold bind at 1.
      destruct (getCachedRates_quiet w) as (_ & _ & _ & _ & l0 & Hl0 & _).
      rewrite getCachedRates_run in *. cbn [fst snd] in *. rewrite H.
      match goal with
      | |- context [bind (request ?r ?a) ?f ?w0] =>
          destruct (bind_request_trace r a f) with (w := w0) as [l Hl];
          [intros; unfold saveCurrencyCache; stability|]
      end.
      erewrite newEvents_app; [|rewrite Hl, Hl0, <- app_assoc; reflexivity].
      apply in_or_app; right; by left.
    + intros resp Hnet Husd. by rewrite (fetchExchangeRates_miss w resp H Hnet Husd).
Qed.



End RatesCache.

(** ** The unknown-model notification over a session *)

Module Session.
Import Js Api UpdateStats Tracking Terms.









Lemma act_invariant actions tr shown :
  (unknownModelNotificationShown tr = false -> shown = 0%nat) ->
  (shown <= 1)%nat ->
  let res := fold_left act actions (tr, shown) in
  (res.2 <= 1)%nat
  /\ (res.2 = 1%nat -> unknownModelNotificationShown res.1 = true).
Proof.
  revert tr shown. induction actions as [|a actions IH]; intros tr shown Hflag Hle.
  { cbn. split; [done|]. intros ->. destruct (unknownModelNotificationShown tr); [done|].
    by specialize (Hflag eq_refl). }
  cbn [fold_left]. destruct a as [item|]; cbn [act].
  - by apply IH.
  - unfold notifyUnknownModels.
    destruct (unknownModelNotificationShown tr) eqn:E; cbn [negb andb].
    + apply IH; [by rewrite E|done].
    + destruct (0 <? _)%nat.
      * apply IH; [done|]. rewrite Hflag by done. lia.
      * apply IH; [intros _; by apply Hflag|done].
Qed.

(** X15: the notification about unknown models is shown at most once in a
    session, whatever items the updates go through and however often the
    check at the end of an update runs. *)
Theorem notification_once (actions : list Action) :
  ((fold_left act actions (initialTracker, 0%nat)).2 <= 1)%nat.
Proof. apply (act_invariant actions initialTracker 0%nat); [done|lia]. Qed.

End Session.

(** ** The session token *)

Module SessionToken.
Import Js Database Tokens.

Lemma str_chars s : str (chars s) = s.
Proof. apply string_of_list_ascii_of_string. Qed.

Lemma chars_str l : chars (str l) = l.
Proof. apply list_ascii_of_string_of_list_ascii. Qed.

Lemma chars_app a b : chars (a +:+ b) = chars a ++ chars b.
Proof.
  induction a as [|c a IH]; [done|].
  change (String c a +:+ b) with (String c (a +:+ b)).
  unfold chars in *. cbn [list_ascii_of_string]. by rewrite IH.
Qed.

Lemma prefixb_app p l : prefixb p (p ++ l) = true.
Proof. induction p as [|c p IH]; [done|]. cbn. by rewrite Ascii.eqb_refl. Qed.

(** The pieces hold only characters of the input. *)
Lemma splitAux_chars sep n cur l :
  Forall (fun piece => forall c, In c (chars piece) -> In c (cur ++ l))
         (splitAux sep n cur l).
Proof.
  revert n cur. induction l as [|c l IH]; intros n cur.
  - cbn. constructor; [|done]. intros c. rewrite chars_str, app_nil_r.
    by rewrite <- in_rev.
  - cbn [splitAux]. destruct n as [|n].
    + destruct (prefixb sep (c :: l)).
      * constructor.
        -- intros x. rewrite chars_str, <- in_rev. intros ?. apply in_or_app. by left.
        -- eapply Forall_impl; [apply IH|]. cbn. intros piece H x Hx.
           apply in_or_app. right. right. by apply H.
      * eapply Forall_impl; [apply IH|]. cbn. intros piece H x Hx.
        destruct (H x Hx) as [<-|Hin]; [apply in_or_app; right; by left|].
        apply in_app_or in Hin as [?|?]; apply in_or_app; [by left|right; by right].
    + eapply Forall_impl; [apply IH|]. cbn. intros piece H x Hx.
      destruct (in_app_or _ _ _ (H x Hx)) as [?|?]; apply in_or_app;
        [by left|right; by right].
Qed.

Section Split.
Variable c0 : ascii.
Variable sep' : list ascii.

Lemma prefixb_sep_head l : ~ In c0 (take 1 l) -> prefixb (c0 :: sep') l = false.
Proof.
  destruct l as [|c l]; [done|]. cbn.
  destruct (Ascii.eqb_spec c0 c) as [->|]; [|done]. intros []. by left.
Qed.

(** Without the first character of the separator there is one piece. *)
Lemma splitAux_none cur l :
  ~ In c0 l -> splitAux (c0 :: sep') 0 cur l = [str (rev cur ++ l)].
Proof.
  revert cur. induction l as [|c l IH]; intros cur Hno.
  - cbn. by rewrite app_nil_r.
  - cbn [splitAux]. rewrite prefixb_sep_head by (cbn; intros [<-|[]]; apply Hno; by left).
    rewrite IH by (intros ?; apply Hno; by right).
    cbn [rev]. by rewrite <- app_assoc.
Qed.

Lemma splitAux_skip n cur pre l :
  length pre = n -> splitAux (c0 :: sep') n cur (pre ++ l) = splitAux (c0 :: sep') 0 cur l.
Proof.
  revert n. induction pre as [|c pre IH]; intros n Hlen.
  - by subst.
  - destruct n as [|n]; [done|]. cbn [app splitAux]. apply IH. cbn in Hlen. lia.
Qed.

(** The first piece ends at the first separator. *)
Lemma splitAux_first cur a b :
  ~ In c0 a ->
  splitAux (c0 :: sep') 0 cur (a ++ (c0 :: sep') ++ b)
  = str (rev cur ++ a) :: splitAux (c0 :: sep') 0 [] b.
Proof.
  revert cur. induction a as [|c a IH]; intros cur Hno.
  - cbn [app]. rewrite app_nil_r. cbn [splitAux].
    change (c0 :: sep' ++ b) with ((c0 :: sep') ++ b). rewrite prefixb_app. f_equal.
    apply splitAux_skip. cbn. lia.
  - cbn [app splitAux].
    rewrite prefixb_sep_head by (cbn; intros [<-|[]]; apply Hno; by left).
    rewrite IH by (intros ?; apply Hno; by right).
    cbn [rev]. by rewrite <- app_assoc.
Qed.

End Split.

Lemma noPercent_piece s sep piece :
  noPercent s -> In piece (split s sep) -> noPercent piece.
Proof.
  intros Hs Hin Hp. apply Hs. unfold split in Hin.
  assert (H := splitAux_chars (chars sep) 0 [] (chars s)).
  rewrite List.Forall_forall in H. by apply (H piece Hin percent Hp).
Qed.

(** X16: the session token read from the database comes apart again where
    it is used: split at the separator it gives the user id, the second
    part of the subject of the JWT (or the word undefined when the subject
    has no second part), and then the JWT itself, when neither the subject
    nor the JWT holds a percent sign. *)
Theorem getCursorTokenFromDB_parts
    (decodeSub : option string -> option string) (token sub session : string) :
  decodeSub (Some token) = Some sub ->
  noPercent sub -> noPercent token ->
  getCursorTokenFromDB decodeSub (TokenRow token) = Some session ->
  split session "%3A%3A" = [default "undefined" (split sub "|" !! 1%nat); token].
Proof.
  intros Hsub Hs Ht. unfold getCursorTokenFromDB. rewrite Hsub.
  destruct (truthy sub); [|discriminate]. cbv zeta. intros [= <-].
  set (userId := default "undefined" (split sub "|" !! 1%nat)).
  assert (Hu : noPercent userId).
  { subst userId. destruct (split sub "|" !! 1%nat) as [piece|] eqn:E; cbn.
    - apply (noPercent_piece sub "|" piece Hs).
      apply list_elem_of_In. by eapply list_elem_of_lookup_2.
    - unfold noPercent, percent. cbn. intuition discriminate. }
  unfold split. rewrite !chars_app.
  change (chars "%3A%3A") with (percent :: chars "3A%3A").
  rewrite (splitAux_first percent (chars "3A%3A") [] (chars userId) (chars token) Hu).
  rewrite (splitAux_none percent (chars "3A%3A") [] (chars token) Ht).
  cbn [rev app]. by rewrite !str_chars.
Qed.

Lemma getCursorTokenFromDB_parts_witness :
  split "user_01%3A%3Aheader.payload.signature" "%3A%3A"
  = [default "undefined" (split "auth0|user_01" "|" !! 1%nat);
     "header.payload.signature"].
Proof.
  apply (getCursorTokenFromDB_parts Worlds.decodeSub "header.payload.signature"
           "auth0|user_01" "user_01%3A%3Aheader.payload.signature").
  - reflexivity.
  - unfold noPercent, percent. cbn. intuition discriminate.
  - unfold noPercent, percent. cbn. intuition discriminate.
  - reflexivity.
Defined.

End SessionToken.

(** ** The link to the billing portal *)

Module Portal.
Import Js Regex Eff Stripe.

Lemma removeAllAux_char p fuel pv s :
  (length s < fuel)%nat ->
  removeAllAux (Char p) fuel pv s = List.filter (fun c => negb (p c)) s.
Proof.
  revert pv s. induction fuel as [|fuel IH]; intros pv s Hlen; [lia|].
  destruct s as [|c s]; [reflexivity|].
  cbn [removeAllAux rmatch rest List.filter]. cbn in Hlen.
  destruct (p c); cbn [negb].
  - cbn [rest prev length]. rewrite (proj2 (Nat.ltb_lt _ _)) by lia. apply IH. lia.
  - f_equal. apply IH. lia.
Qed.

(** X17: the link [getStripeSessionUrl] returns is the answer of the
    service without its double quotes, every other character kept in
    place; an error of the request is thrown as it is. *)
Theorem getStripeSessionUrl_strips_quotes :
  (forall data,
     getStripeSessionUrl (Returned data)
     = Returned (str (List.filter (fun c => negb (Ascii.eqb quote c)) (chars data))))
  /\ (forall error, getStripeSessionUrl (Thrown error) = Thrown error).
Proof.
  split; [|done]. intros data. unfold getStripeSessionUrl, removeAll, chr. do 2 f_equal.
  apply removeAllAux_char. rewrite UnknownModels.length_chars. lia.
Qed.

End Portal.

(** ** The log history *)

Module LogHistory.
Import Js Logger LogCalls.

Lemma addToLogHistory_newest logMessage logHistory :
  addToLogHistory logMessage logHistory
  = logMessage :: take (MAX_LOG_HISTORY - 1) logHistory.
Proof.
  unfold addToLogHistory. cbv zeta.
  destruct (Nat.ltb_spec MAX_LOG_HISTORY (length (logMessage :: logHistory))) as [H|H].
  - reflexivity.
  - cbn in H. rewrite take_ge; [done|]. unfold MAX_LOG_HISTORY in *. lia.
Qed.

Lemma log_length loggingEnabled timestamp logHistory message data error :
  (length logHistory <= MAX_LOG_HISTORY)%nat ->
  (length (log loggingEnabled timestamp logHistory message data error)
   <= MAX_LOG_HISTORY)%nat.
Proof.
  intros H. unfold log. destruct (shouldLog _ _ _); [|done].
  rewrite addToLogHistory_newest. cbn [length]. rewrite length_take.
  unfold MAX_LOG_HISTORY in *. lia.
Qed.

(** X18: the log history never holds more than [MAX_LOG_HISTORY] lines,
    whatever is logged and whenever the history is cleared. *)
Theorem logHistory_bounded (calls : list LogCall) :
  (length (getLogHistory (fold_left call calls [])) <= MAX_LOG_HISTORY)%nat.
Proof.
  unfold getLogHistory.
  assert (H : forall h, (length h <= MAX_LOG_HISTORY)%nat ->
                        (length (fold_left call calls h) <= MAX_LOG_HISTORY)%nat).
  { induction calls as [|c calls IH]; intros h Hh; [done|].
    cbn [fold_left]. apply IH. destruct c; cbn [call].
    - by apply log_length.
    - cbn. lia. }
  apply H. cbn. lia.
Qed.

(** X19: an error is recorded whatever the logging setting and whatever
    tag the message has: its line, marked ERROR, becomes the first of the
    history, before the 999 newest lines of the history so far. *)
Theorem log_error_recorded (loggingEnabled : bool) (timestamp : string)
    (logHistory : list string) (message : string) (data : LogData) :
  log loggingEnabled timestamp logHistory message data true
  = logLine timestamp message data true :: take 999 logHistory
  /\ startsWith (logLine timestamp message data true)
                ("[" +:+ timestamp +:+ "] [ERROR] " +:+ message) = true.
Proof.
  split.
  - unfold log, shouldLog. cbn [orb]. by rewrite addToLogHistory_newest.
  - unfold logLine, startsWith. cbv zeta.
    destruct data as [|[json|]|[text|]];
      rewrite ?(SessionToken.chars_app (_ +:+ _ +:+ "] [" +:+ "ERROR" +:+ "] " +:+ _));
      first [apply UnknownModels.prefixb_refl | apply SessionToken.prefixb_app].
Qed.

End LogHistory.

(** ** The currencies offered and their symbols *)

Module Symbols.
Import Js Currency CurrencyList.

(** X20: every currency offered for display has an entry in the table
    of [getCurrencySymbol], and is shown with the symbol of that entry:
    none falls back to its code for want of one. *)
Theorem supported_currencies_have_symbols :
  Forall (fun code => In (code, getCurrencySymbol code) symbolMap) SUPPORTED_CURRENCIES.
Proof.
  apply List.Forall_forall. intros code Hin.
  repeat (destruct Hin as [<-|Hin];
          [vm_compute; repeat (first [left; reflexivity|right])|]).
  destruct Hin.
Qed.

End Symbols.
